(** * The docs demo transpiler and the pickers modal dialog

    A shallow embedding of

    - [docs/scripts/formattedTSDemos.js]: [getFiles], [transpileFile] and
      [main], the script that turns the TypeScript demos into formatted
      JavaScript;
    - [PickersModalDialog]: the slot and prop forwarding of the mobile
      pickers' dialog;
    - [useStaticPicker]: what the hook renders.

    JavaScript strings are modelled as [string], objects used as maps as
    [gmap string _], the file system as a finite map from paths to nodes,
    and the external tools (Babel with its preview plugin,
    typescript-to-proptypes, Prettier, the helpers module) as the fields
    of a record the script is run against. *)

From Stdlib Require Import ZArith Ascii String.
From stdpp Require Import base option list strings pretty gmap fin_maps.

Open Scope Z_scope.

(** ** JavaScript string methods *)

Module JsString.

(** [s.startsWith(p)] *)
Fixpoint startsWith (s p : string) {struct p} : bool :=
  match p with
  | EmptyString => true
  | String c p' =>
      match s with
      | EmptyString => false
      | String d s' => if Ascii.eqb c d then startsWith s' p' else false
      end
  end.

(** [s.includes(sub)] *)
Fixpoint includes (s sub : string) : bool :=
  if startsWith s sub then true
  else match s with
       | EmptyString => false
       | String _ s' => includes s' sub
       end.

(** [s.endsWith(suf)]: some tail of [s] is [suf]. *)
Fixpoint endsWith (s suf : string) : bool :=
  if String.eqb s suf then true
  else match s with
       | EmptyString => false
       | String _ s' => endsWith s' suf
       end.

(** [s.slice(n)] *)
Fixpoint slice_from (n : nat) (s : string) : string :=
  match n, s with
  | O, _ => s
  | S _, EmptyString => EmptyString
  | S n', String _ s' => slice_from n' s'
  end.

(** [s.replace(pat, rep)] with a string pattern: only the first
    occurrence of [pat] is replaced. ([rep] holds no [$] pattern in the
    script.) *)
Fixpoint replace (s pat rep : string) : string :=
  if startsWith s pat then rep +:+ slice_from (String.length pat) s
  else match s with
       | EmptyString => EmptyString
       | String c s' => String c (replace s' pat rep)
       end.

End JsString.

(** ** The regular expression [/import \w* from 'prop-types'/] *)

Module PropTypesImport.
Import JsString.

(** [\w] is [[A-Za-z0-9_]]. *)
Definition is_word_char (c : ascii) : bool :=
  let n := nat_of_ascii c in
  ((48 <=? n) && (n <=? 57) || (65 <=? n) && (n <=? 90)
   || (97 <=? n) && (n <=? 122) || (n =? 95))%nat.

(** [\w*] followed by the literal [rest], matched at the start of [s]:
    every number of word characters is tried. *)
Fixpoint word_star_then (rest s : string) : bool :=
  if startsWith s rest then true
  else match s with
       | EmptyString => false
       | String c s' => is_word_char c && word_star_then rest s'
       end.

(** The whole pattern matched at the start of [s]. *)
Definition match_here (s : string) : bool :=
  startsWith s "import "
  && word_star_then " from 'prop-types'" (slice_from 7 s).

(** [/import \w* from 'prop-types'/.test(code)]: the pattern is not
    anchored, so every start position is tried. *)
Fixpoint test (code : string) : bool :=
  if match_here code then true
  else match code with
       | EmptyString => false
       | String _ code' => test code'
       end.

(** Every character of [s] is a word character. *)
Fixpoint word (s : string) : bool :=
  match s with
  | EmptyString => true
  | String c s' => is_word_char c && word s'
  end.

End PropTypesImport.

(** ** Errors and results *)

(** A thrown JavaScript [Error]; only its [message] is ever inspected. *)
Record Error := { message : string }.

(** The outcome of a call that may throw (or of a promise that may
    reject). *)
Inductive result (A : Type) :=
| Ok (a : A)
| Throw (e : Error).
Arguments Ok {A} a.
Arguments Throw {A} e.

(** ** The file system *)

Module Fs.

(** What a path names, with its modification time in milliseconds
    ([mtimeMs], which the script only compares). [Dir] carries the names
    [readdir] lists and
    whether the directory may be listed; a name that is listed but names
    nothing (a dangling symbolic link, an entry removed meanwhile) is a
    name with no node at its path. [Socket] stands for every node that is
    neither a regular file nor a directory. *)
Inductive node :=
| File (content : string) (mtime : Z)
| Dir (entries : list string) (listable : bool) (mtime : Z)
| Socket (mtime : Z).

(** The part of [fs.Stats] the script looks at. *)
Record Stats := { isDirectory : bool; isFile : bool; mtimeMs : Z }.

Definition stats_of (n : node) : Stats :=
  match n with
  | File _ t => {| isDirectory := false; isFile := true; mtimeMs := t |}
  | Dir _ _ t => {| isDirectory := true; isFile := false; mtimeMs := t |}
  | Socket t => {| isDirectory := false; isFile := false; mtimeMs := t |}
  end.

(** Node's error messages: code, description, system call, path. *)
Definition sys_error (code_and_text syscall path : string) : Error :=
  {| message := code_and_text +:+ ", " +:+ syscall +:+ " '" +:+ path +:+ "'" |}.

Definition ENOENT := sys_error "ENOENT: no such file or directory".
Definition ENOTDIR := sys_error "ENOTDIR: not a directory".
Definition EACCES := sys_error "EACCES: permission denied".
Definition EISDIR := sys_error "EISDIR: illegal operation on a directory".
Definition ENXIO := sys_error "ENXIO: no such device or address".

(** [path.join(root, name)] for a normalized [root] with no trailing
    separator and a plain entry [name] (POSIX separator): there
    [path.join] has nothing to normalize and the result is the
    concatenation. On another root ([/repo/docs/], [/repo/./docs])
    [path.join] answers the normalized path, which this function does
    not; [normalized] below tells the roots it is exact on. *)
Definition path_join (root name : string) : string :=
  root +:+ "/" +:+ name.

(** The segments of a path: the texts between its separators. *)
Fixpoint segments (p : string) : list string :=
  match p with
  | EmptyString => [EmptyString]
  | String c p' =>
      if Ascii.eqb c "/" then EmptyString :: segments p'
      else match segments p' with
           | seg :: segs => String c seg :: segs
           | [] => [String c EmptyString]
           end
  end.

(** A segment [path.normalize] keeps as it is. *)
Definition plain_segment (seg : string) : bool :=
  negb (String.eqb seg "") && negb (String.eqb seg ".") && negb (String.eqb seg "..").

(** A root [path.normalize] leaves as it is and that does not end with a
    separator: plain segments, after a leading separator if the path is
    absolute. *)
Definition normalized (root : string) : bool :=
  match segments root with
  | [] => false
  | [only] => plain_segment only
  | first :: rest =>
      (plain_segment first || String.eqb first "") && forallb plain_segment rest
  end.

(** [path.normalize] leaves the entries of the ignore list, which are
    already normalized, as they are. *)
Definition path_normalize (p : string) : string := p.

(** [path.dirname] and [path.basename]: the path is cut at its last
    separator. [split_last s] returns the text before the last
    separator of [s] (if there is one) and the text after it. *)
Fixpoint split_last (s : string) : option string * string :=
  match s with
  | EmptyString => (None, EmptyString)
  | String c s' =>
      match split_last s' with
      | (Some d, b) => (Some (String c d), b)
      | (None, b) =>
          if Ascii.eqb c "/" then (Some EmptyString, b)
          else (None, String c b)
      end
  end.

Definition dirname (p : string) : string :=
  match fst (split_last p) with
  | Some EmptyString => "/"
  | Some d => d
  | None => "."
  end.

Definition basename (p : string) : string := snd (split_last p).

Section Operations.
Variable fs : gmap string node.

(** [fse.readdir(p)]. A path is looked up whole: one that lies below a
    regular file names nothing and is reported as missing, where Node
    reports that a part of it is not a directory. *)
Definition readdir (p : string) : result (list string) :=
  match fs !! p with
  | None => Throw (ENOENT "scandir" p)
  | Some (Dir names true _) => Ok names
  | Some (Dir _ false _) => Throw (EACCES "scandir" p)
  | Some _ => Throw (ENOTDIR "scandir" p)
  end.

(** [fse.stat(p)] *)
Definition stat (p : string) : result Stats :=
  match fs !! p with
  | None => Throw (ENOENT "stat" p)
  | Some n => Ok (stats_of n)
  end.

(** [fse.exists(p)] *)
Definition exists_ (p : string) : bool :=
  match fs !! p with
  | None => false
  | Some _ => true
  end.

(** [fse.readFile(p, 'utf8')] *)
Definition readFile (p : string) : result string :=
  match fs !! p with
  | None => Throw (ENOENT "open" p)
  | Some (File content _) => Ok content
  | Some (Dir _ _ _) => Throw (EISDIR "read" p)
  | Some (Socket _) => Throw (ENXIO "open" p)
  end.

(** [fse.writeFile(p, data)] at time [now]: an existing regular file is
    replaced; a new file needs its directory, and is added to its
    listing. A write fails on opening its path or not at all. *)
Definition writeFile (now : Z) (p data : string) : result (gmap string node) :=
  match fs !! p with
  | Some (File _ _) => Ok (<[p := File data now]> fs)
  | Some (Dir _ _ _) => Throw (EISDIR "open" p)
  | Some (Socket _) => Throw (ENXIO "open" p)
  | None =>
      match fs !! dirname p with
      | Some (Dir names l _) =>
          Ok (<[p := File data now]>
                (<[dirname p := Dir (names ++ [basename p]) l now]> fs))
      | Some _ => Throw (ENOTDIR "open" p)
      | None => Throw (ENOENT "open" p)
      end
  end.

(** What is left when the file at [p] is removed at time [now], an
    [fs.unlinkSync(p)] whose failure is ignored: nothing changes when [p]
    names no file. *)
Definition remove (now : Z) (p : string) : gmap string node :=
  match fs !! p with
  | Some (File _ _) | Some (Socket _) =>
      match fs !! dirname p with
      | Some (Dir names l _) =>
          <[dirname p :=
              Dir (List.filter (fun name => negb (String.eqb name (basename p))) names) l now]>
            (delete p fs)
      | _ => delete p fs
      end
  | _ => fs
  end.
End Operations.

End Fs.

(** ** The script *)

Module Transpiler.
Import JsString Fs.

(** [const ignoreList = ['/pages.ts']] *)
Definition ignoreList : list string := ["/pages.ts"].

(** *** [getFiles]

    The callbacks of [Promise.all] only read the file system, so the
    result is a function of it. The promises are taken to settle in the
    order of the listing: the files are collected in that order and the
    first rejection of the listing is the one [Promise.all] rejects
    with. [None] is a traversal deeper than [fuel]. *)

Fixpoint promise_all {A : Type} (ps : list (option (result A)))
  : option (result (list A)) :=
  match ps with
  | [] => Some (Ok [])
  | p :: ps' =>
      match p with
      | None => None
      | Some (Throw e) => Some (Throw e)
      | Some (Ok v) =>
          match promise_all ps' with
          | None => None
          | Some (Throw e) => Some (Throw e)
          | Some (Ok vs) => Some (Ok (v :: vs))
          end
      end
  end.

(** [ignoreList.some((ignorePath) => filePath.endsWith(path.normalize(ignorePath)))] *)
Definition ignored (filePath : string) : bool :=
  existsb (fun ignorePath => endsWith filePath (path_normalize ignorePath))
          ignoreList.

(** The callback mapped over the listing; its result is what it pushes
    to [files]. *)
Definition visit (getFiles : string -> option (result (list string)))
           (fs : gmap string node) (root name : string)
  : option (result (list string)) :=
  let filePath := path_join root name in
  match stat fs filePath with
  | Throw e => Some (Throw e)
  | Ok st =>
      if isDirectory st then getFiles filePath
      else if isFile st && endsWith filePath ".tsx" && negb (ignored filePath)
           then Some (Ok [filePath])
           else Some (Ok [])
  end.

Definition no_such_file (e : Error) : bool :=
  includes (message e) "no such file or directory".

Fixpoint getFiles (fuel : nat) (fs : gmap string node) (root : string)
  : option (result (list string)) :=
  match fuel with
  | O => None
  | S fuel' =>
      let attempt :=
        match readdir fs root with
        | Throw e => Some (Throw e)
        | Ok names =>
            match promise_all (map (visit (getFiles fuel' fs) fs root) names) with
            | None => None
            | Some (Throw e) => Some (Throw e)
            | Some (Ok pushed) => Some (Ok (concat pushed))
            end
        end in
      match attempt with
      | None => None
      | Some (Throw error) =>
          if no_such_file error then Some (Ok []) else Some (Throw error)
      | Some (Ok files) => Some (Ok files)
      end
  end.

(** *** [TranspileResult] *)

Definition Success : Z := 0.
Definition Skipped : Z := 1.
Definition Failed : Z := 2.

(** *** The external tools *)

Inductive Plugin :=
| JsxPreview (maxLines : nat) (outputFilename : string).

(** What the preview plugin leaves of the file its [outputFilename]
    names: the file as it was, a preview written to it, or no file. *)
Inductive PreviewOutput :=
| PreviewUntouched
| PreviewWritten (preview : string)
| PreviewRemoved.

Record TransformOptions := {
  presets : list string;
  plugins : list Plugin;
  retainLines : bool;
  babelrc : bool;
  configFile : bool;
  filename : option string
}.

Definition babelConfig : TransformOptions :=
  {| presets := ["@babel/preset-typescript"];
     plugins := [];
     retainLines := true;
     babelrc := false;
     configFile := false;
     filename := None |}.

(** Babel, typescript-to-proptypes, Prettier and the [./helpers] module
    are not part of the script: it is run against any such tools. A tool
    that can throw (or resolve to nothing the script can use) returns a
    [result].
    - [transformAsync source options]: [babel.transformAsync], its [code];
    - [jsxPreview source maxLines]: what the plugin
      [babel-plugin-jsx-preview], which [babel.transformAsync] runs when
      the options list it, does to the file its [outputFilename] names;
    - [parseFromProgram tsxPath program]: the prop types of the file as
      the program has it, with the script's [shouldResolveObject];
    - [inject ast code]: the code with the prop types added;
    - [resolveConfig path config]: [prettier.resolveConfig.sync];
    - [format source config filepath]: [prettier.format] with the
      resolved configuration and [filepath];
    - [fixBabelGeneratorIssues], [fixLineEndings]: the two helpers;
    - [createProgram files tsxFiles]: the program of [tsxFiles], read from
      the files as they are when it is created.
    The preview file is the only file a tool is taken to change; what
    the tools read besides their arguments is taken to be the same in
    every call. *)
Record Tools (Program AST Config : Type) := {
  transformAsync : string -> TransformOptions -> result string;
  jsxPreview : string -> nat -> PreviewOutput;
  parseFromProgram : string -> Program -> result AST;
  inject : AST -> string -> result string;
  resolveConfig : string -> string -> result Config;
  format : string -> Config -> string -> result string;
  fixBabelGeneratorIssues : string -> string;
  fixLineEndings : string -> string -> string;
  createProgram : gmap string node -> list string -> Program
}.
Arguments transformAsync {Program AST Config} _ _ _.
Arguments jsxPreview {Program AST Config} _ _ _.
Arguments parseFromProgram {Program AST Config} _ _ _.
Arguments inject {Program AST Config} _ _ _.
Arguments resolveConfig {Program AST Config} _ _ _.
Arguments format {Program AST Config} _ _ _ _.
Arguments fixBabelGeneratorIssues {Program AST Config} _ _.
Arguments fixLineEndings {Program AST Config} _ _ _.
Arguments createProgram {Program AST Config} _ _ _.

(** *** Effects

    What the script does to the world, in the order it does it. *)
Inductive event :=
| CallTranspileFile (tsxPath : string) (ignoreCache : bool)
| FsExists (p : string)
| FsStat (p : string)
| FsReadFile (p : string)
| BabelTransform (options : TransformOptions)
| ParseFromProgram (p : string)
| Inject
| PrettierResolveConfig (p : string)
| PrettierFormat (filepath : string)
| FixBabelGeneratorIssues
| FixLineEndings
| FsWriteFile (p data : string)
| ConsoleError (tsxPath : string) (err : Error)
| Summary (successful skipped failed : Z)
| ConsoleLog (text : string)
| ProcessExit (code : Z)
| FsWatchFile (p : string) (interval : Z).

(** The files and the time a write is stamped with. *)
Record world := { fs : gmap string node; clock : Z }.

(** A computation that reads and changes the world, records its effects
    and may throw. *)
Definition M (A : Type) : Type := world -> result A * world * list event.

Definition ret {A : Type} (a : A) : M A := fun w => (Ok a, w, []).

Definition throw {A : Type} (e : Error) : M A := fun w => (Throw e, w, []).

Definition bind {A B : Type} (m : M A) (k : A -> M B) : M B :=
  fun w =>
    match m w with
    | (Ok a, w1, t1) =>
        match k a w1 with
        | (r, w2, t2) => (r, w2, t1 ++ t2)
        end
    | (Throw e, w1, t1) => (Throw e, w1, t1)
    end.

(** A call that reads the world and is recorded as [ev]. *)
Definition perform {A : Type} (ev : event) (f : world -> result A) : M A :=
  fun w => (f w, w, [ev]).

(** [Promise.all([p, q])] of two reads: both are started, the first
    rejection is the one thrown. *)
Definition promise_all2 {A B : Type} (p : M A) (q : M B) : M (A * B) :=
  fun w =>
    match p w, q w with
    | (ra, _, t1), (rb, _, t2) =>
        (match ra, rb with
         | Ok a, Ok b => Ok (a, b)
         | Throw e, _ => Throw e
         | _, Throw e => Throw e
         end, w, t1 ++ t2)
    end.

Definition fse_exists (p : string) : M bool :=
  perform (FsExists p) (fun w => Ok (exists_ (fs w) p)).
Definition fse_stat (p : string) : M Stats :=
  perform (FsStat p) (fun w => stat (fs w) p).
Definition fse_readFile (p : string) : M string :=
  perform (FsReadFile p) (fun w => readFile (fs w) p).
Definition fse_writeFile (p data : string) : M unit :=
  fun w =>
    match writeFile (fs w) (clock w) p data with
    | Ok fs' => (Ok tt, {| fs := fs'; clock := clock w |}, [FsWriteFile p data])
    | Throw e => (Throw e, w, [FsWriteFile p data])
    end.

Notation "'let*' x ':=' m 'in' k" := (bind m (fun x => k))
  (at level 10, x name, m at level 100, k at level 200).
Notation "'let*' ' pat ':=' m 'in' k" := (bind m (fun pat => k))
  (at level 10, pat strict pattern, m at level 100, k at level 200).

Section Script.
Context {Program AST Config : Type}.
Variable tools : Tools Program AST Config.
(** [path.join(__dirname, '../../')], without its trailing separator. *)
Variable workspaceRoot : string.

(** What a plugin of the options does to the files while Babel runs, at
    time [now]: a write that fails makes the plugin throw. *)
Definition run_plugin (source : string) (now : Z) (files : gmap string node)
           (plugin : Plugin) : result (gmap string node) :=
  match plugin with
  | JsxPreview maxLines outputFilename =>
      match jsxPreview tools source maxLines with
      | PreviewUntouched => Ok files
      | PreviewWritten preview => writeFile files now outputFilename preview
      | PreviewRemoved => Ok (remove files now outputFilename)
      end
  end.

(** The plugins run in the order of the options; the first that throws
    stops the transform. The result is the files then, and the error if
    there is one. *)
Fixpoint run_plugins (source : string) (now : Z) (plugins : list Plugin)
         (files : gmap string node) : gmap string node * option Error :=
  match plugins with
  | [] => (files, None)
  | plugin :: rest =>
      match run_plugin source now files plugin with
      | Ok files' => run_plugins source now rest files'
      | Throw e => (files, Some e)
      end
  end.

(** [babel.transformAsync(source, options)]: the plugins of the options
    have done their writing when the call settles, with the error of a
    plugin or else with what the transform answers. *)
Definition babel_transformAsync (source : string) (options : TransformOptions)
  : M string :=
  fun w =>
    match run_plugins source (clock w) (plugins options) (fs w) with
    | (files, Some e) =>
        (Throw e, {| fs := files; clock := clock w |}, [BabelTransform options])
    | (files, None) =>
        (transformAsync tools source options, {| fs := files; clock := clock w |},
         [BabelTransform options])
    end.

Definition typescriptToProptypes_parseFromProgram (p : string) (program : Program)
  : M AST :=
  perform (ParseFromProgram p) (fun _ => parseFromProgram tools p program).
Definition typescriptToProptypes_inject (ast : AST) (code : string) : M string :=
  perform Inject (fun _ => inject tools ast code).
Definition prettier_resolveConfig (p config : string) : M Config :=
  perform (PrettierResolveConfig p) (fun _ => resolveConfig tools p config).
Definition prettier_format (jsSource : string) (config : Config) (filepath : string)
  : M string :=
  perform (PrettierFormat filepath) (fun _ => format tools jsSource config filepath).
Definition helpers_fixBabelGeneratorIssues (source : string) : M string :=
  perform FixBabelGeneratorIssues (fun _ => Ok (fixBabelGeneratorIssues tools source)).
Definition helpers_fixLineEndings (source target : string) : M string :=
  perform FixLineEndings (fun _ => Ok (fixLineEndings tools source target)).

(** [const jsPath = tsxPath.replace('.tsx', '.js')] *)
Definition jsPath_of (tsxPath : string) : string :=
  replace tsxPath ".tsx" ".js".

(** The cache test at the head of the [try] block: [true] when the
    function returns [Skipped] there. *)
Definition js_is_newer (tsxPath jsPath : string) (ignoreCache : bool) : M bool :=
  if negb ignoreCache then
    let* present := fse_exists jsPath in
    if (present : bool) then
      let* '(jsStat, tsxStat) := promise_all2 (fse_stat jsPath) (fse_stat tsxPath) in
      ret (mtimeMs tsxStat <? mtimeMs jsStat)
    else ret false
  else ret false.

(** [{ ...babelConfig, filename: tsxPath }], with the preview plugin
    added to [plugins] unless the demo belongs to the premium themes. *)
Definition transformOptions_of (tsxPath : string) : TransformOptions :=
  let transformOptions :=
    {| presets := presets babelConfig; plugins := plugins babelConfig;
       retainLines := retainLines babelConfig; babelrc := babelrc babelConfig;
       configFile := configFile babelConfig; filename := Some tsxPath |} in
  let enableJSXPreview :=
    negb (includes tsxPath (path_join "pages" "premium-themes")) in
  if enableJSXPreview then
    {| presets := presets transformOptions;
       plugins := plugins transformOptions
                    ++ [JsxPreview 16 (tsxPath +:+ ".preview")];
       retainLines := retainLines transformOptions;
       babelrc := babelrc transformOptions;
       configFile := configFile transformOptions;
       filename := filename transformOptions |}
  else transformOptions.

(** The body of the [try] block. *)
Definition transpile_try (tsxPath : string) (program : Program)
           (ignoreCache : bool) (jsPath : string) : M Z :=
  let* newer := js_is_newer tsxPath jsPath ignoreCache in
  if (newer : bool) then ret Skipped
  else
    let* source := fse_readFile tsxPath in
    let transformOptions := transformOptions_of tsxPath in
    let* code := babel_transformAsync source transformOptions in
    let* _ :=
      if PropTypesImport.test code then
        throw {| message := "TypeScript demo contains prop-types, please remove them" |}
      else ret tt in
    let* propTypesAST := typescriptToProptypes_parseFromProgram tsxPath program in
    let* codeWithPropTypes := typescriptToProptypes_inject propTypesAST code in
    let* prettierConfig :=
      prettier_resolveConfig jsPath (path_join workspaceRoot "prettier.config.js") in
    let prettierFormat :=
      fun jsSource => prettier_format jsSource prettierConfig jsPath in
    let* prettified := prettierFormat codeWithPropTypes in
    let* formatted := helpers_fixBabelGeneratorIssues prettified in
    let* correctedLineEndings := helpers_fixLineEndings source formatted in
    let* data := prettierFormat correctedLineEndings in
    let* _ := fse_writeFile jsPath data in
    ret Success.

(** [transpileFile(tsxPath, program, ignoreCache)]: whatever the [try]
    block throws is reported and turned into [Failed]. *)
Definition transpileFile (tsxPath : string) (program : Program)
           (ignoreCache : bool) (w : world) : Z * world * list event :=
  let jsPath := jsPath_of tsxPath in
  match transpile_try tsxPath program ignoreCache jsPath w with
  | (Ok r, w', t) => (r, w', CallTranspileFile tsxPath ignoreCache :: t)
  | (Throw err, w', t) =>
      (Failed, w', CallTranspileFile tsxPath ignoreCache :: t ++ [ConsoleError tsxPath err])
  end.

(** *** [main] *)

Record Argv := { watch : bool; disableCache : bool }.

(** How [main] ends. *)
Inductive completion :=
| Returned
| Exited (code : Z)
| Rejected (e : Error).

(** What is left when [main] is over: how it ended and the files a
    watcher was registered for. *)
Record Finished := { status : completion; watched : list string }.

(** [Promise.all(tsxFiles.map((file) => transpileFile(file, program,
    cacheDisabled)))], the files taken one after the other. *)
Fixpoint transpileAll (tsxFiles : list string) (program : Program)
         (cacheDisabled : bool) (w : world) : list Z * world * list event :=
  match tsxFiles with
  | [] => ([], w, [])
  | file :: rest =>
      match transpileFile file program cacheDisabled w with
      | (r, w1, t1) =>
          match transpileAll rest program cacheDisabled w1 with
          | (rs, w2, t2) => (r :: rs, w2, t1 ++ t2)
          end
      end
  end.

(** The counters: [(successful, failed, skipped)]. *)
Definition counters : Type := Z * Z * Z.

(** The [switch] on one result. *)
Definition count (c : counters) (r : Z) : result counters :=
  match c with
  | (successful, failed, skipped) =>
      if r =? Success then Ok (successful + 1, failed, skipped)
      else if r =? Failed then Ok (successful, failed + 1, skipped)
      else if r =? Skipped then Ok (successful, failed, skipped + 1)
      else Throw {| message := "No handler for " +:+ pretty r |}
  end.

(** The [forEach] over the results. *)
Fixpoint tally (c : counters) (results : list Z) : result counters :=
  match results with
  | [] => Ok c
  | r :: rest =>
      match count c r with
      | Ok c' => tally c' rest
      | Throw e => Throw e
      end
  end.

Definition main (fuel : nat) (argv : Argv) (w : world)
  : option (Finished * world * list event) :=
  let watchMode := watch argv in
  let cacheDisabled := disableCache argv in
  match getFiles fuel (fs w) (path_join workspaceRoot "docs/src/pages") with
  | None => None
  | Some (Throw e) => Some ({| status := Rejected e; watched := [] |}, w, [])
  | Some (Ok oldStructure) =>
      match getFiles fuel (fs w) (path_join workspaceRoot "docs/data") with
      | None => None
      | Some (Throw e) => Some ({| status := Rejected e; watched := [] |}, w, [])
      | Some (Ok newStructure) =>
          let tsxFiles := oldStructure ++ newStructure in
          let program := createProgram tools (fs w) tsxFiles in
          match transpileAll tsxFiles program cacheDisabled w with
          | (results, w1, t1) =>
              match tally (0, 0, 0) results with
              | Throw e =>
                  Some ({| status := Rejected e; watched := [] |}, w1, t1)
              | Ok (successful, failed, skipped) =>
                  let t2 := t1 ++ [Summary successful skipped failed] in
                  if negb watchMode then
                    if 0 <? failed then
                      Some ({| status := Exited 1; watched := [] |}, w1,
                            t2 ++ [ProcessExit 1])
                    else
                      Some ({| status := Returned; watched := [] |}, w1, t2)
                  else
                    Some ({| status := Returned; watched := tsxFiles |}, w1,
                          t2 ++ map (fun filePath => FsWatchFile filePath 500) tsxFiles
                             ++ [ConsoleLog (String "010" "Watching for file changes...")])
              end
          end
      end
  end.

(** The listener [fse.watchFile] registers: when a watched file
    changes it is transpiled again, the cache ignored. A file that is
    not watched has no listener. *)
Definition on_change (watched : list string) (program : Program)
           (filePath : string) (w : world) : option (world * list event) :=
  if bool_decide (filePath ∈ watched) then
    match transpileFile filePath program true w with
    | (r, w', t) =>
        Some (w', if r =? 0 then t ++ [ConsoleLog ("Success - " +:+ filePath)] else t)
    end
  else None.

End Script.

(** *** What the statements below speak of *)

(** [found fs root p]: [p] is a regular file met by walking down from
    [root] through listed entries that are directories. *)
Inductive found (fs : gmap string node) : string -> string -> Prop :=
| found_here root names name content mtime :
    readdir fs root = Ok names ->
    In name names ->
    fs !! path_join root name = Some (File content mtime) ->
    found fs root (path_join root name)
| found_below root names name entries listable mtime p :
    readdir fs root = Ok names ->
    In name names ->
    fs !! path_join root name = Some (Dir entries listable mtime) ->
    found fs (path_join root name) p ->
    found fs root p.

(** The length of the longest path of a file system: no traversal goes
    deeper. *)
Definition longest_path (fs : gmap string node) : nat :=
  foldr (fun entry n => Nat.max (String.length entry.1) n) O (map_to_list fs).

(** The events of one call of [transpileFile] after its entry: the ones
    of the [try] block and the report of what it threw. *)
Definition inside_call (e : event) : bool :=
  match e with
  | CallTranspileFile _ _ | Summary _ _ _ | ConsoleLog _ | ProcessExit _
  | FsWatchFile _ _ => false
  | _ => true
  end.

Definition is_call (e : event) : bool :=
  match e with
  | CallTranspileFile _ _ => true
  | _ => false
  end.

Definition is_write (e : event) : bool :=
  match e with
  | FsWriteFile _ _ => true
  | _ => false
  end.

Definition is_watch (e : event) : bool :=
  match e with
  | FsWatchFile _ _ => true
  | _ => false
  end.

(** The values of [TranspileResult]. *)
Definition valid_result (r : Z) : Prop :=
  r = Success \/ r = Skipped \/ r = Failed.

(** How many of the results are [r]. *)
Definition occurrences (r : Z) (results : list Z) : Z :=
  Z.of_nat (count_occ Z.eq_dec results r).

(** The events of a run that gets past the cache test and succeeds. *)
Definition pipeline_events (tsxPath jsPath data : string) : list event :=
  [FsReadFile tsxPath;
   BabelTransform (transformOptions_of tsxPath);
   ParseFromProgram tsxPath;
   Inject;
   PrettierResolveConfig jsPath;
   PrettierFormat jsPath;
   FixBabelGeneratorIssues;
   FixLineEndings;
   PrettierFormat jsPath;
   FsWriteFile jsPath data].

(** The pipeline as the specification words it, for comparison with the
    one of [transpile_try]: read, Babel transform, prop-types injection,
    Prettier formatting, write. [spec_pipeline_output] is what it would
    write, [spec_pipeline_events] what it would do. *)
Definition spec_pipeline_output {Program AST Config : Type}
           (tools : Tools Program AST Config) (workspaceRoot : string)
           (tsxPath : string) (program : Program) (source : string)
  : result string :=
  match transformAsync tools source (transformOptions_of tsxPath) with
  | Throw e => Throw e
  | Ok code =>
      match parseFromProgram tools tsxPath program with
      | Throw e => Throw e
      | Ok ast =>
          match inject tools ast code with
          | Throw e => Throw e
          | Ok injected =>
              match resolveConfig tools (jsPath_of tsxPath)
                      (path_join workspaceRoot "prettier.config.js") with
              | Throw e => Throw e
              | Ok config => format tools injected config (jsPath_of tsxPath)
              end
          end
      end
  end.

Definition spec_pipeline_events (tsxPath jsPath data : string) : list event :=
  [FsReadFile tsxPath;
   BabelTransform (transformOptions_of tsxPath);
   ParseFromProgram tsxPath;
   Inject;
   PrettierResolveConfig jsPath;
   PrettierFormat jsPath;
   FsWriteFile jsPath data].

(** A file system in which every directory may be listed and every
    listed entry is there. *)
Definition healthy (fs : gmap string node) : Prop :=
  forall p names listable mtime,
    fs !! p = Some (Dir names listable mtime) ->
    listable = true
    /\ forall name, In name names -> fs !! path_join p name <> None.

Definition is_report (e : event) : bool :=
  match e with
  | ConsoleError _ _ => true
  | _ => false
  end.

(** [`${tsxPath}.preview`], the file the script names to the preview
    plugin. *)
Definition previewPath_of (tsxPath : string) : string := tsxPath +:+ ".preview".

(** Two directories that differ at most in what they list and in their
    modification time. *)
Definition relisted (before after : option node) : Prop :=
  exists names names' listable mtime mtime',
    before = Some (Dir names listable mtime)
    /\ after = Some (Dir names' listable mtime').

(** [touched_only files files' paths]: every path outside [paths] names
    in [files'] what it named in [files], except that the directory of a
    path of [paths] may list other names and have another modification
    time. *)
Definition touched_only (files files' : gmap string node) (paths : list string)
  : Prop :=
  forall q, ~ In q paths ->
    files' !! q = files !! q
    \/ (In q (map dirname paths) /\ relisted (files !! q) (files' !! q)).




(** [way fs root above d]: [d] is [root] or a directory met by walking
    down from [root] through listed entries that are directories;
    [above] holds the directories walked through, [root] first and [d]
    left out: the ones whose [Promise.all] an error of [d] goes
    through. *)
Inductive way (fs : gmap string node) : string -> list string -> string -> Prop :=
| way_here root : way fs root [] root
| way_below root names name entries listable mtime above d :
    readdir fs root = Ok names ->
    In name names ->
    fs !! path_join root name = Some (Dir entries listable mtime) ->
    way fs (path_join root name) above d ->
    way fs root (root :: above) d.

(** Every entry the directory [d] lists is there. *)
Definition entries_there (fs : gmap string node) (d : string) : Prop :=
  forall names name,
    readdir fs d = Ok names -> In name names -> fs !! path_join d name <> None.

(** The same, as a test on the nodes of the file system. *)
Definition healthy_node (fs : gmap string node) (entry : string * node) : bool :=
  match entry.2 with
  | Dir names listable _ =>
      listable
      && forallb (fun name => exists_ fs (path_join entry.1 name)) names
  | _ => true
  end.

Definition healthy_check (fs : gmap string node) : bool :=
  forallb (healthy_node fs) (map_to_list fs).

End Transpiler.

(** ** [PickersModalDialog] *)

Module Dialog.

(** The components the function names, and any other one a consumer
    passes in. *)
Inductive component :=
| PickersModalDialogRoot
| PickersModalDialogContent
| Fade
| Custom (name : string).

(** The values a prop can hold. [VObject] is a props object, [VElement]
    a rendered element, [VOpaque] anything the function only passes on
    (children, callbacks). *)
#[warnings="-register-all"]
Inductive value :=
| VUndefined
| VBool (b : bool)
| VOpaque (name : string)
| VComponent (c : component)
| VObject (o : gmap string value)
| VElement (type : component) (props : gmap string value).

Record element := { type : component; props : gmap string value }.

(** [PickersModalDialogSlotsComponent], and its uncapitalized form: the
    two differ only in the names of their keys. *)
Record SlotsComponent := {
  Dialog : option component;
  MobilePaper : option component;
  MobileTransition : option component
}.
Record Slots := {
  dialog : option component;
  mobilePaper : option component;
  mobileTransition : option component
}.

(** [PickersModalDialogSlotsComponentsProps]; the fields are prefixed
    since [slotProps] and [componentsProps] share the type. *)
Record SlotsComponentsProps := {
  props_dialog : option (gmap string value);
  props_mobilePaper : option (gmap string value);
  props_mobileTransition : option (gmap string value)
}.

Record PickersModalDialogProps := {
  children : value;
  onDismiss : value;
  open : bool;
  components : option SlotsComponent;
  componentsProps : option SlotsComponentsProps;
  slots : option Slots;
  slotProps : option SlotsComponentsProps
}.

(** [o?.f]: [undefined] when [o] is. *)
Definition opt_chain {A B : Type} (o : option A) (f : A -> option B) : option B :=
  match o with
  | Some a => f a
  | None => None
  end.
(** [a ?? b] *)
Definition nullish {A : Type} (a b : option A) : option A :=
  match a with
  | Some x => Some x
  | None => b
  end.
Infix "?." := opt_chain (at level 20, right associativity).
Infix "??" := nullish (at level 45, right associativity).

(** [{...src}] onto the object built so far: the keys of [src] win;
    spreading [undefined] adds nothing. *)
Definition spread (src : option (gmap string value)) (o : gmap string value)
  : gmap string value :=
  match src with
  | Some m => m ∪ o
  | None => o
  end.

Definition of_component (c : option component) : value :=
  match c with
  | Some c => VComponent c
  | None => VUndefined
  end.
Definition of_object (o : option (gmap string value)) : value :=
  match o with
  | Some o => VObject o
  | None => VUndefined
  end.

(** The element the function returns; the attributes are set from left
    to right, a later one overriding an earlier one of the same name. *)
Definition PickersModalDialog (p : PickersModalDialogProps) : element :=
  let Dialog' := default PickersModalDialogRoot
                   (slots p ?. dialog ?? components p ?. Dialog) in
  let Transition := default Fade
                      (slots p ?. mobileTransition ?? components p ?. MobileTransition) in
  let attrs : gmap string value := ∅ in
  let attrs := <["open" := VBool (open p)]> attrs in
  let attrs := <["onClose" := onDismiss p]> attrs in
  let attrs := spread (componentsProps p ?. props_dialog) attrs in
  let attrs := <["TransitionComponent" := VComponent Transition]> attrs in
  let attrs := <["TransitionProps" :=
                   of_object (slotProps p ?. props_mobileTransition
                              ?? componentsProps p ?. props_mobileTransition)]> attrs in
  let attrs := <["PaperComponent" :=
                   of_component (slots p ?. mobilePaper ?? components p ?. MobilePaper)]> attrs in
  let attrs := <["PaperProps" :=
                   of_object (slotProps p ?. props_mobilePaper
                              ?? componentsProps p ?. props_mobilePaper)]> attrs in
  let attrs := <["children" :=
                   VElement PickersModalDialogContent {["children" := children p]}]> attrs in
  {| type := Dialog'; props := attrs |}.

(** The same props with [slotProps.dialog] set to [d]. *)
Definition with_slotProps_dialog (d : option (gmap string value))
           (p : PickersModalDialogProps) : PickersModalDialogProps :=
  {| children := children p;
     onDismiss := onDismiss p;
     open := open p;
     components := components p;
     componentsProps := componentsProps p;
     slots := slots p;
     slotProps :=
       Some {| props_dialog := d;
               props_mobilePaper := slotProps p ?. props_mobilePaper;
               props_mobileTransition := slotProps p ?. props_mobileTransition |} |}.

(** The names of the attributes the function sets itself, after the
    spread. *)
Definition own_attributes : list string :=
  ["TransitionComponent"; "TransitionProps"; "PaperComponent"; "PaperProps"; "children"].

(** A consumer that overrides the transition through [slots], passes
    transition props both ways, and tries to set the transition through
    the dialog props. *)
Definition sample_props : PickersModalDialogProps :=
  {| children := VOpaque "views";
     onDismiss := VOpaque "dismiss";
     open := true;
     components :=
       Some {| Dialog := Some (Custom "LegacyDialog");
               MobilePaper := None;
               MobileTransition := Some (Custom "Grow") |};
     componentsProps :=
       Some {| props_dialog :=
                 Some (<["fullWidth" := VBool true]>
                       (<["TransitionComponent" := VComponent (Custom "Zoom")]> ∅));
               props_mobilePaper := None;
               props_mobileTransition := Some {["timeout" := VOpaque "100"]} |};
     slots :=
       Some {| dialog := None;
               mobilePaper := None;
               mobileTransition := Some (Custom "Slide") |};
     slotProps :=
       Some {| props_dialog := None;
               props_mobilePaper := None;
               props_mobileTransition := Some {["timeout" := VOpaque "200"]} |} |}.

End Dialog.

(** ** [useStaticPicker] *)

Module StaticPicker.

(** JavaScript values as the hook meets them. A component is a value like
    another; [VOpaque] is anything the hook only passes on. *)
#[warnings="-register-all"]
Inductive value :=
| VUndefined
| VBool (b : bool)
| VString (s : string)
| VOpaque (name : string)
| VArray (items : list value)
| VObject (o : gmap string value)
| VElement (type : value) (props : gmap string value).

(** [o?.k]: [undefined] when [o] is not an object or has no such key. *)
Definition get (o : value) (k : string) : value :=
  match o with
  | VObject m => default VUndefined (m !! k)
  | _ => VUndefined
  end.

(** [a ?? b] *)
Definition nullish (a b : value) : value :=
  match a with
  | VUndefined => b
  | _ => a
  end.

(** [Array.isArray(v) ? v : [v]] *)
Definition as_array (v : value) : list value :=
  match v with
  | VArray items => items
  | _ => [v]
  end.

(** [{...src}] onto the object built so far; [undefined] adds nothing. *)
Definition spread (src : value) (o : gmap string value) : gmap string value :=
  match src with
  | VObject m => m ∪ o
  | _ => o
  end.

(** The part of the props the hook reads; the whole of them goes to
    [usePicker]. *)
Record Props := {
  localeText : value;
  slots : value;
  slotProps : value;
  className : value;
  sx : value;
  displayStaticWrapperAs : value;
  autoFocus : value
}.

(** The parameters of the hook. *)
Record UseStaticPickerParams := {
  props : Props;
  valueManager : value;
  validator : value;
  ref : value
}.

(** What [usePicker] is called with and what the hook takes from its
    result. *)
Record UsePickerParams := {
  picker_props : Props;
  picker_valueManager : value;
  picker_validator : value;
  autoFocusView : value;
  additionalViewProps : gmap string value;
  wrapperVariant : value
}.
Record UsePickerResponse := {
  layoutProps : gmap string value;
  renderCurrentView : unit -> value
}.

Definition PickerStaticLayout : value := VOpaque "PickerStaticLayout".
Definition LocalizationProvider : value := VOpaque "LocalizationProvider".

Section Hook.
(** [usePicker] and [clsx] are not part of the file. *)
Variable usePicker : UsePickerParams -> UsePickerResponse.
Variable clsx : value -> value -> value.

(** The call of [usePicker]. *)
Definition usePicker_call (params : UseStaticPickerParams) : UsePickerParams :=
  {| picker_props := props params;
     picker_valueManager := valueManager params;
     picker_validator := validator params;
     autoFocusView := nullish (autoFocus (props params)) (VBool false);
     additionalViewProps := ∅;
     wrapperVariant := displayStaticWrapperAs (props params) |}.

(** The attributes of the layout, set from left to right. *)
Definition layout_attributes (params : UseStaticPickerParams) : gmap string value :=
  let p := props params in
  let picker := usePicker (usePicker_call params) in
  let attrs : gmap string value := ∅ in
  let attrs := spread (VObject (layoutProps picker)) attrs in
  let attrs := spread (get (slotProps p) "layout") attrs in
  let attrs := <["slots" := slots p]> attrs in
  let attrs := <["slotProps" := slotProps p]> attrs in
  let attrs := <["sx" :=
                   VArray (as_array (sx p)
                           ++ as_array (get (get (slotProps p) "layout") "sx"))]> attrs in
  let attrs := <["className" :=
                   clsx (className p)
                        (get (get (slotProps p) "layout") "className")]> attrs in
  let attrs := <["ref" := ref params]> attrs in
  let attrs := <["children" := renderCurrentView picker tt]> attrs in
  attrs.

(** [renderPicker()], the function the hook returns. *)
Definition renderPicker (params : UseStaticPickerParams) : value :=
  let p := props params in
  let Layout := nullish (get (slots p) "layout") PickerStaticLayout in
  VElement LocalizationProvider
    (<["children" := VElement Layout (layout_attributes params)]>
     (<["localeText" := localeText p]> ∅)).

End Hook.

(** The names of the attributes the hook sets itself, after the
    spreads. *)
Definition own_layout_attributes : list string :=
  ["slots"; "slotProps"; "sx"; "className"; "ref"; "children"].

End StaticPicker.

(** ** Sample tools and worlds

    Small instances the statements below are evaluated on. *)

Module Samples.
Import JsString Fs Transpiler.

(** Removes the blank line after a comma, as a generator fix-up would. *)
Fixpoint squeeze_after_comma (s : string) : string :=
  match s with
  | EmptyString => EmptyString
  | String c s' =>
      String c
        match s' with
        | String a s'' =>
            if Ascii.eqb c "," && Ascii.eqb a "010"
               && startsWith s'' (String "010" EmptyString)
            then squeeze_after_comma s''
            else squeeze_after_comma s'
        | EmptyString => EmptyString
        end
  end.

(** Tools that leave the code as it is; the program is the text of the
    prop types, which [inject] appends. *)
Definition plain_tools : Tools string string unit :=
  {| transformAsync := fun source _ => Ok source;
     jsxPreview := fun _ _ => PreviewRemoved;
     parseFromProgram := fun _ program => Ok program;
     inject := fun ast code => Ok (code +:+ ast);
     resolveConfig := fun _ _ => Ok tt;
     format := fun jsSource _ _ => Ok jsSource;
     fixBabelGeneratorIssues := fun s => s;
     fixLineEndings := fun _ target => target;
     createProgram := fun _ _ => EmptyString |}.

(** The same, with a plugin that writes a preview of every demo. *)
Definition previewing_tools : Tools string string unit :=
  {| transformAsync := fun source _ => Ok source;
     jsxPreview := fun source _ => PreviewWritten ("<" +:+ source +:+ ">");
     parseFromProgram := fun _ program => Ok program;
     inject := fun ast code => Ok (code +:+ ast);
     resolveConfig := fun _ _ => Ok tt;
     format := fun jsSource _ _ => Ok jsSource;
     fixBabelGeneratorIssues := fun s => s;
     fixLineEndings := fun _ target => target;
     createProgram := fun _ _ => EmptyString |}.

(** Tools that answer as [previewing_tools] what they are asked about
    the one demo [docs/data/Demo.tsx] holding [const a = 1;], and fail
    or answer otherwise on everything else. *)
Definition demo_only_tools : Tools string string unit :=
  {| transformAsync := fun source _ =>
       if String.eqb source "const a = 1;" then Ok source
       else Throw {| message := "Unexpected token" |};
     jsxPreview := fun source _ =>
       if String.eqb source "const a = 1;" then PreviewWritten ("<" +:+ source +:+ ">")
       else PreviewRemoved;
     parseFromProgram := fun p program =>
       if String.eqb p "/repo/docs/data/Demo.tsx" then Ok program
       else Throw {| message := "not in program" |};
     inject := fun ast code => Ok (code +:+ ast);
     resolveConfig := fun p _ =>
       if String.eqb p "/repo/docs/data/Demo.js" then Ok tt
       else Throw {| message := "no configuration" |};
     format := fun jsSource _ filepath =>
       if String.eqb filepath "/repo/docs/data/Demo.js" then Ok jsSource
       else Ok (jsSource +:+ ";");
     fixBabelGeneratorIssues := fun s => s;
     fixLineEndings := fun source target =>
       if String.eqb source "const a = 1;" then target else source;
     createProgram := fun _ _ => EmptyString |}.

(** The same, with a helper that does change the code. *)
Definition fixing_tools : Tools string string unit :=
  {| transformAsync := fun source _ => Ok source;
     jsxPreview := fun _ _ => PreviewRemoved;
     parseFromProgram := fun _ program => Ok program;
     inject := fun ast code => Ok (code +:+ ast);
     resolveConfig := fun _ _ => Ok tt;
     format := fun jsSource _ _ => Ok jsSource;
     fixBabelGeneratorIssues := squeeze_after_comma;
     fixLineEndings := fun _ target => target;
     createProgram := fun _ _ => EmptyString |}.

Definition root : string := "/repo".

(** [docs/data] holds one demo, [docs/src/pages] is missing. *)
Definition demo_fs : gmap string node :=
  <["/repo/docs/data" := Dir ["Demo.tsx"] true 50]>
  (<["/repo/docs/data/Demo.tsx" := File "const a = 1;" 100]> ∅).

(** The same with the JavaScript version, written later. *)
Definition cached_fs : gmap string node :=
  <["/repo/docs/data" := Dir ["Demo.tsx"; "Demo.js"] true 150]>
  (<["/repo/docs/data/Demo.js" := File "const a = 1;" 150]> demo_fs).

Definition demo_world : world := {| fs := demo_fs; clock := 200 |}.
Definition cached_world : world := {| fs := cached_fs; clock := 200 |}.

(** A demo that imports [prop-types], alone and with a JavaScript
    version written after it. *)
Definition prop_types_source : string :=
  "import PropTypes from 'prop-types';".
Definition prop_types_fs : gmap string node :=
  <["/repo/docs/data" := Dir ["Demo.tsx"] true 50]>
  (<["/repo/docs/data/Demo.tsx" := File prop_types_source 100]> ∅).
Definition prop_types_cached_fs : gmap string node :=
  <["/repo/docs/data/Demo.js" := File "old" 150]> prop_types_fs.

(** A demo with a blank line after a comma. *)
Definition nl : string := String "010" EmptyString.
Definition blank_line_source : string := "f(a," +:+ nl +:+ nl +:+ "b);".
Definition blank_line_fs : gmap string node :=
  <["/repo/docs/data" := Dir ["Demo.tsx"] true 50]>
  (<["/repo/docs/data/Demo.tsx" := File blank_line_source 100]> ∅).

(** A demo whose name holds [.tsx] twice. *)
Definition doubled_fs : gmap string node :=
  <["/repo/docs/data" := Dir ["Demo.tsx.tsx"] true 50]>
  (<["/repo/docs/data/Demo.tsx.tsx" := File "const a = 1;" 100]> ∅).

(** Tools whose program is a snapshot of the files taken when it is
    created; the prop types injected are read off the snapshot. *)
Definition snapshot_tools : Tools (gmap string node) string unit :=
  {| transformAsync := fun source _ => Ok source;
     jsxPreview := fun _ _ => PreviewRemoved;
     parseFromProgram := fun p program =>
       match program !! p with
       | Some (File content _) => Ok content
       | _ => Throw {| message := "not in program" |}
       end;
     inject := fun ast code => Ok (code +:+ " /* " +:+ ast +:+ " */");
     resolveConfig := fun _ _ => Ok tt;
     format := fun jsSource _ _ => Ok jsSource;
     fixBabelGeneratorIssues := fun s => s;
     fixLineEndings := fun _ target => target;
     createProgram := fun fs _ => fs |}.

(** The demo before and after an edit. *)
Definition before_edit_fs : gmap string node :=
  <["/repo/docs/data" := Dir ["Demo.tsx"] true 50]>
  (<["/repo/docs/data/Demo.tsx" := File "let a: number;" 100]> ∅).
Definition after_edit_fs : gmap string node :=
  <["/repo/docs/data/Demo.tsx" := File "let a: string;" 300]> before_edit_fs.

(** A tree for [getFiles]: a demo, a nested demo, a file of another
    kind, a socket, and a directory that holds nothing. *)
Definition tree_fs : gmap string node :=
  <["/repo/docs/data" := Dir ["Demo.tsx"; "pages.ts"; "sub"; "sock.tsx"; "empty"] true 50]>
  (<["/repo/docs/data/Demo.tsx" := File "a" 100]>
  (<["/repo/docs/data/pages.ts" := File "b" 100]>
  (<["/repo/docs/data/sub" := Dir ["Inner.tsx"; "Inner.js"] true 60]>
  (<["/repo/docs/data/sub/Inner.tsx" := File "c" 100]>
  (<["/repo/docs/data/sub/Inner.js" := File "d" 100]>
  (<["/repo/docs/data/sock.tsx" := Socket 100]>
  (<["/repo/docs/data/empty" := Dir [] true 70]> ∅))))))).

(** A directory that lists an entry that is gone ([ghost]) next to a
    demo and to a directory that may not be listed ([locked]). *)
Definition masked_fs : gmap string node :=
  <["/repo/docs/data" := Dir ["Demo.tsx"; "ghost"; "locked"] true 50]>
  (<["/repo/docs/data/Demo.tsx" := File "a" 100]>
  (<["/repo/docs/data/locked" := Dir [] false 60]> ∅)).

(** [docs/data] is a regular file. *)
Definition blocked_world : world :=
  {| fs := <["/repo/docs" := Dir ["data"] true 10]>
           (<["/repo/docs/data" := File "not a directory" 10]> ∅);
     clock := 200 |}.

(** The runs the statements below look at. *)
Definition demo_tsx : string := "/repo/docs/data/Demo.tsx".
Definition demo_js : string := "/repo/docs/data/Demo.js".
Definition doubled_tsx : string := "/repo/docs/data/Demo.tsx.tsx".

Definition demo_run : Z * world * list event :=
  transpileFile plain_tools root demo_tsx "X" false demo_world.
Definition demo_batch : list Z * world * list event :=
  transpileAll plain_tools root [demo_tsx] "" false demo_world.
Definition doubled_run : Z * world * list event :=
  transpileFile plain_tools root doubled_tsx "" true
    {| fs := doubled_fs; clock := 200 |}.
Definition blank_line_run : Z * world * list event :=
  transpileFile fixing_tools root demo_tsx "" true
    {| fs := blank_line_fs; clock := 200 |}.
Definition previewing_run : Z * world * list event :=
  transpileFile previewing_tools root demo_tsx "X" false demo_world.
(** The demo whose name holds [.tsx] twice, with a sibling [.js] file
    written after it, and its run with the cache in use. *)
Definition sibling_fs : gmap string node :=
  <["/repo/docs/data" := Dir ["Demo.tsx.tsx"; "Demo.tsx.js"] true 150]>
  (<["/repo/docs/data/Demo.tsx.js" := File "old" 150]> doubled_fs).
Definition sibling_run : Z * world * list event :=
  transpileFile plain_tools root doubled_tsx "" false
    {| fs := sibling_fs; clock := 200 |}.
Definition prop_types_world : world := {| fs := prop_types_fs; clock := 200 |}.
(** The same after the preview plugin has written its file. *)
Definition prop_types_previewed_world : world :=
  {| fs :=
       <["/repo/docs/data/Demo.tsx.preview" := File ("<" +:+ prop_types_source +:+ ">") 200]>
       (<["/repo/docs/data" := Dir ["Demo.tsx"; "Demo.tsx.preview"] true 200]> prop_types_fs);
     clock := 200 |}.
Definition prop_types_cached_world : world :=
  {| fs := prop_types_cached_fs; clock := 200 |}.
(** The listener of the watch mode after the edit, with the program
    created before it, and a fresh run, with a program created after. *)
Definition stale_run : Z * world * list event :=
  transpileFile snapshot_tools root demo_tsx
    (createProgram snapshot_tools before_edit_fs [demo_tsx]) true
    {| fs := after_edit_fs; clock := 400 |}.
Definition fresh_run : Z * world * list event :=
  transpileFile snapshot_tools root demo_tsx
    (createProgram snapshot_tools after_edit_fs [demo_tsx]) true
    {| fs := after_edit_fs; clock := 400 |}.

(** The entry that is gone, next to the demo only. *)
Definition ghost_fs : gmap string node :=
  <["/repo/docs/data" := Dir ["Demo.tsx"; "ghost"] true 50]>
  (<["/repo/docs/data/Demo.tsx" := File "a" 100]> ∅).

(** A directory that may not be listed, two levels below the root. *)
Definition nested_locked_fs : gmap string node :=
  <["/repo/docs/data" := Dir ["Demo.tsx"; "sub"] true 50]>
  (<["/repo/docs/data/Demo.tsx" := File "a" 100]>
  (<["/repo/docs/data/sub" := Dir ["locked"] true 60]>
  (<["/repo/docs/data/sub/locked" := Dir [] false 70]> ∅))).

(** The directory that may not be listed, alone. *)
Definition locked_fs : gmap string node :=
  <["/repo/docs/data" := Dir ["Demo.tsx"; "locked"] true 50]>
  (<["/repo/docs/data/Demo.tsx" := File "a" 100]>
  (<["/repo/docs/data/locked" := Dir [] false 60]> ∅)).

End Samples.

(** * Properties *)

Example startsWith_ex : JsString.startsWith "import x" "import " = true.
Proof. reflexivity. Qed.
Example endsWith_ex : JsString.endsWith "docs/data/Demo.tsx" ".tsx" = true.
Proof. reflexivity. Qed.
Example endsWith_ex2 : JsString.endsWith "docs/data/pages.ts" ".tsx" = false.
Proof. reflexivity. Qed.
Example replace_ex : JsString.replace "docs/data/Demo.tsx" ".tsx" ".js" = "docs/data/Demo.js".
Proof. reflexivity. Qed.
Example regexp_ex1 :
  PropTypesImport.test "import * as React from 'react'; import PropTypes from 'prop-types';" = true.
Proof. reflexivity. Qed.
Example regexp_ex2 : PropTypesImport.test "import  from 'prop-types'" = true.
Proof. reflexivity. Qed.
Example regexp_ex3 : PropTypesImport.test "import { a } from 'prop-types'" = false.
Proof. reflexivity. Qed.
Example dirname_ex : Fs.dirname "docs/data/Demo.js" = "docs/data".
Proof. reflexivity. Qed.
Example basename_ex : Fs.basename "docs/data/Demo.js" = "Demo.js".
Proof. reflexivity. Qed.
Example dirname_ex2 : Fs.dirname "Demo.js" = ".".
Proof. reflexivity. Qed.
Example dirname_ex3 : Fs.dirname "/Demo.js" = "/".
Proof. reflexivity. Qed.
Example normalized_ex : Fs.normalized "/repo/docs/data" = true.
Proof. reflexivity. Qed.
Example normalized_ex2 : Fs.normalized "docs/data" = true.
Proof. reflexivity. Qed.
Example normalized_ex3 : Fs.normalized "/repo/docs/data/" = false.
Proof. reflexivity. Qed.
Example normalized_ex4 : Fs.normalized "/repo/./docs" = false.
Proof. reflexivity. Qed.
Example normalized_ex5 : Fs.normalized "/repo//docs" = false.
Proof. reflexivity. Qed.
Example normalized_ex6 : Fs.normalized "/" = false.
Proof. reflexivity. Qed.
Example normalized_ex7 : Fs.normalized "." = false.
Proof. reflexivity. Qed.
Example enoent_ex : message (Fs.ENOENT "scandir" "docs/data") = "ENOENT: no such file or directory, scandir 'docs/data'".
Proof. reflexivity. Qed.

(** ** Strings *)

Section StringFacts.
Import JsString.

Lemma append_cons c s t : String c s +:+ t = String c (s +:+ t).
Proof. reflexivity. Qed.

Lemma append_nil t : EmptyString +:+ t = t.
Proof. reflexivity. Qed.

Lemma startsWith_refl s : startsWith s s = true.
Proof.
  induction s as [|c s IH]; simpl; [done|].
  by rewrite Ascii.eqb_refl.
Qed.

Lemma startsWith_app s t : startsWith (s +:+ t) s = true.
Proof.
  induction s as [|c s IH]; [by destruct t|].
  rewrite append_cons. cbn [startsWith].
  by rewrite Ascii.eqb_refl.
Qed.

Lemma slice_from_app s t : slice_from (String.length s) (s +:+ t) = t.
Proof.
  induction s as [|c s IH]; [by destruct t|].
  by rewrite append_cons.
Qed.

(** An occurrence of [.tsx] cannot start in [b] and run into a following
    [.tsx]. *)
Lemma startsWith_tsx_app b :
  startsWith b ".tsx" = false -> b <> EmptyString ->
  startsWith (b +:+ ".tsx") ".tsx" = false.
Proof.
  intros H Hne.
  destruct b as [|c0 [|c1 [|c2 [|c3 b]]]]; [done|..];
    rewrite ?append_cons, ?append_nil;
    cbn [startsWith] in *;
    repeat match goal with
           | |- context [Ascii.eqb ?a ?b] => is_var b; destruct (Ascii.eqb a b)
           end; first [done | reflexivity].
Qed.

(** When [.tsx] occurs in a path only as its extension, [replace] turns
    the extension into [.js]. *)
Lemma replace_trailing_tsx base :
  includes base ".tsx" = false ->
  replace (base +:+ ".tsx") ".tsx" ".js" = base +:+ ".js".
Proof.
  induction base as [|c base IH]; intros H; [done|].
  cbn [includes] in H.
  destruct (startsWith (String c base) ".tsx") eqn:Hs; [done|].
  pose proof (startsWith_tsx_app (String c base) Hs ltac:(done)) as Hs'.
  rewrite append_cons in Hs' |- *.
  cbn [replace]. rewrite Hs', append_cons.
  f_equal. by apply IH.
Qed.

Lemma length_append s t :
  String.length (s +:+ t) = (String.length s + String.length t)%nat.
Proof.
  induction s as [|c s IH]; [done|].
  rewrite append_cons. cbn [String.length]. by rewrite IH.
Qed.
End StringFacts.

(** ** More on the strings of the script *)

Section MoreStringFacts.
Import JsString PropTypesImport.

Lemma append_assoc (s t u : string) : (s +:+ t) +:+ u = s +:+ (t +:+ u).
Proof.
  induction s as [|c s IH]; [done|]. by rewrite !append_cons, IH.
Qed.

Lemma startsWith_spec s p :
  startsWith s p = true <-> exists t, s = p +:+ t.
Proof.
  split.
  - revert s. induction p as [|c p IH]; intros s H; [by exists s|].
    destruct s as [|d s]; [discriminate H|]. cbn [startsWith] in H.
    destruct (Ascii.eqb_spec c d) as [->|]; [|discriminate H].
    destruct (IH _ H) as [t ->]. by exists t.
  - intros [t ->]. apply startsWith_app.
Qed.

Lemma includes_spec s sub :
  includes s sub = true <-> exists pre post, s = pre +:+ sub +:+ post.
Proof.
  split.
  - induction s as [|c s IH]; cbn [includes]; intros H.
    + destruct (startsWith EmptyString sub) eqn:Hs; [|discriminate H].
      apply startsWith_spec in Hs as [t Ht]. by exists EmptyString, t.
    + destruct (startsWith (String c s) sub) eqn:Hs.
      * apply startsWith_spec in Hs as [t Ht]. by exists EmptyString, t.
      * destruct (IH H) as (pre & post & ->). by exists (String c pre), post.
  - intros (pre & post & ->). induction pre as [|c pre IH].
    + rewrite append_nil. destruct (sub +:+ post) eqn:E; cbn [includes];
        rewrite <- E, startsWith_app; done.
    + rewrite append_cons. cbn [includes]. rewrite IH.
      by destruct (startsWith _ _).
Qed.

Lemma endsWith_spec s suf :
  endsWith s suf = true <-> exists pre, s = pre +:+ suf.
Proof.
  split.
  - induction s as [|c s IH]; cbn [endsWith]; intros H.
    + destruct (String.eqb_spec EmptyString suf) as [E|]; [|discriminate H].
      exists EmptyString. by rewrite <- E.
    + destruct (String.eqb_spec (String c s) suf) as [E|].
      * exists EmptyString. by rewrite <- E.
      * destruct (IH H) as [pre ->]. by exists (String c pre).
  - intros [pre ->]. induction pre as [|c pre IH].
    + rewrite append_nil. destruct suf; cbn [endsWith]; by rewrite String.eqb_refl.
    + rewrite append_cons. cbn [endsWith]. rewrite IH.
      by destruct (String.eqb _ _).
Qed.

Lemma word_star_then_spec rest s :
  word_star_then rest s = true
  <-> exists ident post, s = ident +:+ rest +:+ post /\ word ident = true.
Proof.
  split.
  - induction s as [|c s IH]; cbn [word_star_then]; intros H.
    + destruct (startsWith EmptyString rest) eqn:Hs; [|discriminate H].
      apply startsWith_spec in Hs as [t Ht]. by exists EmptyString, t.
    + destruct (startsWith (String c s) rest) eqn:Hs.
      * apply startsWith_spec in Hs as [t Ht]. by exists EmptyString, t.
      * apply andb_true_iff in H as [Hc H].
        destruct (IH H) as (ident & post & -> & Hw).
        exists (String c ident), post. split; [done|].
        cbn [word]. by rewrite Hc, Hw.
  - intros (ident & post & -> & Hw). induction ident as [|c ident IH].
    + rewrite append_nil. destruct (rest +:+ post) eqn:E; cbn [word_star_then];
        rewrite <- E, startsWith_app; done.
    + cbn [word] in Hw. apply andb_true_iff in Hw as [Hc Hw].
      rewrite append_cons. cbn [word_star_then]. rewrite Hc, (IH Hw).
      by destruct (startsWith _ _).
Qed.

Lemma match_here_spec s :
  match_here s = true
  <-> exists ident post,
      s = "import " +:+ ident +:+ " from 'prop-types'" +:+ post
      /\ word ident = true.
Proof.
  unfold match_here. rewrite andb_true_iff, startsWith_spec. split.
  - intros [[t ->] H]. change 7%nat with (String.length "import ") in H.
    rewrite slice_from_app in H.
    apply word_star_then_spec in H as (ident & post & -> & Hw).
    by exists ident, post.
  - intros (ident & post & -> & Hw). split; [by eexists|].
    change 7%nat with (String.length "import ").
    rewrite slice_from_app. apply word_star_then_spec. by exists ident, post.
Qed.

(** X1. The test of the transformed code succeeds exactly on the strings
    that hold, somewhere, [import ], then word characters only (possibly
    none), then [ from 'prop-types']: the strings
    [/import \w* from 'prop-types'/] matches. *)
Theorem prop_types_test_spec (code : string) :
  PropTypesImport.test code = true
  <-> exists pre ident post,
      code = pre +:+ "import " +:+ ident +:+ " from 'prop-types'" +:+ post
      /\ word ident = true.
Proof.
  split.
  - induction code as [|c code IH]; cbn [test]; intros H.
    + destruct (match_here EmptyString) eqn:Hm; [|discriminate H].
      apply match_here_spec in Hm as (ident & post & E & Hw).
      by exists EmptyString, ident, post.
    + destruct (match_here (String c code)) eqn:Hm.
      * apply match_here_spec in Hm as (ident & post & E & Hw).
        by exists EmptyString, ident, post.
      * destruct (IH H) as (pre & ident & post & -> & Hw).
        by exists (String c pre), ident, post.
  - intros (pre & ident & post & -> & Hw).
    assert (match_here ("import " +:+ ident +:+ " from 'prop-types'" +:+ post) = true)
      as Hm by (apply match_here_spec; by exists ident, post).
    induction pre as [|c pre IH].
    + rewrite append_nil. revert Hm.
      generalize ("import " +:+ ident +:+ " from 'prop-types'" +:+ post).
      intros s Hm. destruct s; cbn [test]; by rewrite Hm.
    + rewrite append_cons. cbn [test]. rewrite IH. by destruct (match_here (String c _)).
Qed.

End MoreStringFacts.

(** ** The output path *)

Section OutputPathFacts.
Import JsString Fs Transpiler.

(** An occurrence of [.tsx] cannot start in [b] and run into a following
    [.tsx], whatever comes after. *)
Lemma startsWith_tsx_app_post b post :
  startsWith b ".tsx" = false -> b <> EmptyString ->
  startsWith (b +:+ ".tsx" +:+ post) ".tsx" = false.
Proof.
  intros H Hne.
  destruct b as [|c0 [|c1 [|c2 [|c3 b]]]]; [done|..];
    rewrite ?append_cons, ?append_nil;
    cbn [startsWith] in *;
    repeat match goal with
           | |- context [Ascii.eqb ?a ?b] => is_var b; destruct (Ascii.eqb a b)
           end; first [done | reflexivity].
Qed.

Lemma replace_first_tsx pre post :
  includes pre ".tsx" = false ->
  replace (pre +:+ ".tsx" +:+ post) ".tsx" ".js" = pre +:+ ".js" +:+ post.
Proof.
  induction pre as [|c pre IH]; intros H; [done|].
  cbn [includes] in H.
  destruct (startsWith (String c pre) ".tsx") eqn:Hs; [done|].
  pose proof (startsWith_tsx_app_post (String c pre) post Hs ltac:(done)) as Hs'.
  rewrite (append_cons c pre) in Hs' |- *.
  cbn [replace]. rewrite Hs', (append_cons c pre).
  f_equal. by apply IH.
Qed.

Lemma replace_absent s pat rep :
  includes s pat = false -> replace s pat rep = s.
Proof.
  induction s as [|c s IH]; cbn [includes replace];
    destruct (startsWith _ pat); try done.
  intros H. by rewrite IH.
Qed.

(** The first occurrence of [.tsx] in a string that holds one. *)
Lemma first_tsx_split s :
  includes s ".tsx" = true ->
  exists pre post, s = pre +:+ ".tsx" +:+ post /\ includes pre ".tsx" = false.
Proof.
  induction s as [|c s IH]; cbn [includes]; intros H.
  - discriminate H.
  - destruct (startsWith (String c s) ".tsx") eqn:Hs.
    + apply startsWith_spec in Hs as [t Ht]. by exists EmptyString, t.
    + destruct (IH H) as (pre & post & -> & Hpre).
      exists (String c pre), post. split; [done|].
      cbn [includes]. rewrite Hpre.
      destruct (startsWith (String c pre) ".tsx") eqn:Hs'; [|done].
      apply startsWith_spec in Hs' as [t Ht].
      assert (startsWith (String c (pre +:+ ".tsx" +:+ post)) ".tsx" = true) as Hs''.
      { apply startsWith_spec. exists (t +:+ ".tsx" +:+ post).
        by rewrite <- append_cons, Ht, append_assoc. }
      by rewrite Hs'' in Hs.
Qed.

(** X2. [jsPath] replaces the first [.tsx] of the path and nothing else:
    when nothing before it holds [.tsx], [pre.tsx post] becomes
    [pre.js post]. For a path that holds [.tsx] only as its extension this
    is the sibling with the extension [.js]. *)
Theorem jsPath_of_first_occurrence (pre post : string) :
  includes pre ".tsx" = false ->
  jsPath_of (pre +:+ ".tsx" +:+ post) = pre +:+ ".js" +:+ post.
Proof. apply replace_first_tsx. Qed.

(** The output path is one character shorter than a path that holds
    [.tsx], and is the path itself otherwise. *)
Lemma jsPath_of_length p :
  (includes p ".tsx" = true ->
   (String.length (jsPath_of p) + 1 = String.length p)%nat)
  /\ (includes p ".tsx" = false -> jsPath_of p = p).
Proof.
  split.
  - intros H. apply first_tsx_split in H as (pre & post & -> & Hpre).
    unfold jsPath_of. rewrite (replace_first_tsx _ _ Hpre).
    rewrite !length_append. cbn [String.length]. lia.
  - apply replace_absent.
Qed.

(** X3. The output path is the input path exactly when the input path
    holds no [.tsx]; every other path, so every path that ends with
    [.tsx], gets an output path that differs from it. *)
Theorem jsPath_of_fixed_point (p : string) :
  jsPath_of p = p <-> includes p ".tsx" = false.
Proof.
  split; [|apply jsPath_of_length].
  intros Heq. destruct (includes p ".tsx") eqn:H; [|done].
  apply jsPath_of_length in H. rewrite Heq in H. lia.
Qed.

Lemma append_empty_r s : s +:+ EmptyString = s.
Proof. induction s as [|c s IH]; [done|]. by rewrite append_cons, IH. Qed.

Lemma endsWith_includes s suf : endsWith s suf = true -> includes s suf = true.
Proof.
  intros [pre ->]%endsWith_spec. apply includes_spec.
  exists pre, EmptyString. by rewrite append_empty_r.
Qed.

(** A path cannot end with [.tsx] and with [/pages.ts]. *)
Lemma endsWith_tsx_not_pages p :
  endsWith p ".tsx" = true -> endsWith p "/pages.ts" = false.
Proof.
  induction p as [|c p IH]; [done|].
  cbn [endsWith].
  destruct (String.eqb_spec (String c p) ".tsx") as [E|_].
  { injection E as -> ->. reflexivity. }
  destruct (String.eqb_spec (String c p) "/pages.ts") as [E|_].
  { injection E as -> ->. intros H. vm_compute in H. discriminate H. }
  exact IH.
Qed.

(** X4. The ignore list excludes nothing: a path that ends with [.tsx]
    never ends with [/pages.ts], so the test on the ignore list is false
    for every file that passed the test on the extension. *)
Theorem ignoreList_excludes_nothing (filePath : string) :
  endsWith filePath ".tsx" = true -> ignored filePath = false.
Proof.
  intros H. unfold ignored, ignoreList. cbn [existsb].
  unfold path_normalize. by rewrite (endsWith_tsx_not_pages _ H).
Qed.

End OutputPathFacts.

(** ** The file system *)

Section FsFacts.
Import JsString Fs Transpiler.

Lemma split_last_spec s :
  match split_last s with
  | (Some d, b) => s = d +:+ "/" +:+ b
  | (None, b) => s = b
  end.
Proof.
  induction s as [|c s IH]; [done|]. cbn [split_last].
  destruct (split_last s) as [[d|] b].
  - rewrite append_cons. by f_equal.
  - destruct (Ascii.eqb_spec c "/") as [->|_]; by rewrite IH.
Qed.

(** The directory of a path is [.], the root, or a prefix of the path. *)
Lemma dirname_cases p :
  dirname p = "." \/ dirname p = "/" \/ exists rest, p = dirname p +:+ rest.
Proof.
  unfold dirname. pose proof (split_last_spec p) as H.
  destruct (split_last p) as [[[|c d]|] b]; cbn [fst]; [by right; left| |by left].
  right; right. by exists ("/" +:+ b).
Qed.

Lemma append_inv_head s t u : s +:+ t = s +:+ u -> t = u.
Proof.
  induction s as [|c s IH]; [done|]. rewrite !append_cons. intros [= H]. auto.
Qed.

Lemma jsPath_of_shorter p : (String.length (jsPath_of p) <= String.length p)%nat.
Proof.
  destruct (jsPath_of_length p) as [Hyes Hno].
  destruct (includes p ".tsx"); [specialize (Hyes eq_refl); lia|].
  by rewrite (Hno eq_refl).
Qed.

(** The output path is never the preview path, nor the path itself
    followed by something. *)
Lemma jsPath_of_not_preview p : jsPath_of p <> previewPath_of p.
Proof.
  intros E. pose proof (jsPath_of_shorter p) as H.
  rewrite E in H. unfold previewPath_of in H. rewrite length_append in H.
  cbn [String.length] in H. lia.
Qed.

Lemma not_previewPath_of p : p <> previewPath_of p.
Proof.
  intros E. apply (f_equal String.length) in E.
  unfold previewPath_of in E. rewrite length_append in E.
  cbn [String.length] in E. lia.
Qed.

(** The output path is the directory of the preview path only where it
    is the path itself (which [.] and [/] are). *)
Lemma jsPath_of_dirname_preview p :
  jsPath_of p = dirname (previewPath_of p) -> jsPath_of p = p.
Proof.
  intros E. destruct (includes p ".tsx") eqn:Htsx; [|by apply jsPath_of_length].
  exfalso.
  apply first_tsx_split in Htsx as (pre & post & -> & Hpre).
  unfold jsPath_of in E. rewrite (replace_first_tsx _ _ Hpre) in E.
  destruct (dirname_cases (previewPath_of (pre +:+ ".tsx" +:+ post)))
    as [D|[D|[rest D]]].
  - rewrite D in E. apply (f_equal String.length) in E.
    rewrite !length_append in E. cbn [String.length] in E. lia.
  - rewrite D in E. apply (f_equal String.length) in E.
    rewrite !length_append in E. cbn [String.length] in E. lia.
  - rewrite <- E in D. unfold previewPath_of in D.
    rewrite !append_assoc in D. apply append_inv_head in D.
    rewrite !append_cons in D. discriminate D.
Qed.

Lemma relisted_trans a b c : relisted a b -> relisted b c -> relisted a c.
Proof.
  intros (n1 & n2 & l & m1 & m2 & -> & ->) (n3 & n4 & l' & m3 & m4 & E & ->).
  injection E as <- <- <-. by eexists _, _, _, _, _.
Qed.

Lemma touched_only_refl files paths : touched_only files files paths.
Proof. intros q _. by left. Qed.

Lemma touched_only_trans files1 files2 files3 paths :
  touched_only files1 files2 paths -> touched_only files2 files3 paths ->
  touched_only files1 files3 paths.
Proof.
  intros H12 H23 q Hq.
  destruct (H12 q Hq) as [E12|[Hd R12]], (H23 q Hq) as [E23|[Hd' R23]].
  - left. by rewrite E23.
  - right. split; [done|]. by rewrite <- E12.
  - right. split; [done|]. by rewrite E23.
  - right. split; [done|]. by eapply relisted_trans.
Qed.

Lemma touched_only_mono files files' paths paths' :
  (forall q, In q paths -> In q paths') ->
  touched_only files files' paths -> touched_only files files' paths'.
Proof.
  intros Hsub H q Hq. destruct (H q) as [E|[Hd R]]; [by intros ?%Hsub|by left|].
  right. split; [|done].
  apply in_map_iff in Hd as (x & <- & Hx). apply in_map. by apply Hsub.
Qed.

(** A regular file off the touched paths is left as it is. *)
Lemma touched_only_file files files' paths q content mtime :
  touched_only files files' paths -> ~ In q paths ->
  files !! q = Some (File content mtime) ->
  files' !! q = Some (File content mtime).
Proof.
  intros H Hq Hfile.
  destruct (H q Hq) as [->|[_ (? & ? & ? & ? & ? & E & _)]]; [done|].
  by rewrite Hfile in E.
Qed.

(** What a write changes: its path, and the listing of its directory
    when the path is new. *)
Lemma writeFile_frame (files files' : gmap string node) now p data :
  writeFile files now p data = Ok files' ->
  files' !! p = Some (File data now)
  /\ forall q, q <> p ->
       files' !! q = files !! q
       \/ (q = dirname p /\ files !! p = None
           /\ exists names listable mtime,
               files !! q = Some (Dir names listable mtime)
               /\ files' !! q = Some (Dir (names ++ [basename p]) listable now)).
Proof.
  unfold writeFile.
  destruct (files !! p) as [[| |]|] eqn:Hp; try done.
  - intros [= <-]. split; [by rewrite lookup_insert_eq|].
    intros q Hq. left. by rewrite lookup_insert_ne.
  - destruct (files !! dirname p) as [[|names listable mtime|]|] eqn:Hd; try done.
    intros [= <-]. split; [by rewrite lookup_insert_eq|].
    intros q Hq. rewrite lookup_insert_ne by done.
    destruct (decide (dirname p = q)) as [<-|Hne].
    + right. rewrite lookup_insert_eq. split; [done|]. split; [done|].
      by exists names, listable, mtime.
    + left. by rewrite lookup_insert_ne.
Qed.

Lemma writeFile_touched (files files' : gmap string node) now p data :
  writeFile files now p data = Ok files' -> touched_only files files' [p].
Proof.
  intros [_ H]%writeFile_frame q Hq.
  destruct (H q) as [E|(-> & _ & names & l & m & E1 & E2)];
    [intros ->; apply Hq; by left|by left|].
  right. split; [by left|]. by eexists _, _, _, _, _.
Qed.

Lemma remove_touched (files : gmap string node) now p :
  touched_only files (remove files now p) [p].
Proof.
  intros q Hq. assert (p <> q) as Hne by (intros ->; apply Hq; by left).
  unfold remove.
  destruct (files !! p) as [[| |]|] eqn:Hp; try (by left);
    destruct (files !! dirname p) as [[|names l m|]|] eqn:Hd;
    try (left; by rewrite lookup_delete_ne);
    (destruct (decide (dirname p = q)) as [<-|Hne'];
     [right; split; [by left|]; rewrite lookup_insert_eq, Hd;
      by eexists _, _, _, _, _
     |left; by rewrite lookup_insert_ne, lookup_delete_ne]).
Qed.








End FsFacts.

(** ** The Babel call *)

Section BabelFacts.
Import JsString Fs Transpiler.
Context {Program AST Config : Type}.
Variable tools : Tools Program AST Config.

Lemma run_plugin_touched source now files files' maxLines outputFilename :
  run_plugin tools source now files (JsxPreview maxLines outputFilename) = Ok files' ->
  touched_only files files' [outputFilename].
Proof.
  cbn [run_plugin]. destruct (jsxPreview tools source maxLines).
  - intros [= <-]. apply touched_only_refl.
  - apply writeFile_touched.
  - intros [= <-]. apply remove_touched.
Qed.

Lemma run_plugins_touched source now plugins files p :
  Forall (fun plugin => match plugin with
                        | JsxPreview _ outputFilename => outputFilename = p
                        end) plugins ->
  touched_only files (run_plugins tools source now plugins files).1 [p].
Proof.
  intros Hall. revert files.
  induction Hall as [|[maxLines out] plugins -> _ IH]; intros files;
    cbn [run_plugins].
  - apply touched_only_refl.
  - destruct (run_plugin tools source now files (JsxPreview maxLines _))
      as [files'|e] eqn:Hrun; [|apply touched_only_refl].
    eapply touched_only_trans; [by eapply run_plugin_touched|apply IH].
Qed.

(** The only file the options name to a plugin is the preview file. *)
Lemma plugins_of_transformOptions tsxPath :
  Forall (fun plugin => match plugin with
                        | JsxPreview _ outputFilename =>
                            outputFilename = previewPath_of tsxPath
                        end) (plugins (transformOptions_of tsxPath)).
Proof.
  unfold transformOptions_of. cbv zeta.
  destruct (negb _); cbn [plugins babelConfig app]; by repeat constructor.
Qed.

Lemma babel_events source options w :
  (babel_transformAsync tools source options w).2 = [BabelTransform options].
Proof.
  unfold babel_transformAsync. by destruct (run_plugins _ _ _ _ _) as [files [e|]].
Qed.

Lemma babel_clock source options w :
  clock (babel_transformAsync tools source options w).1.2 = clock w.
Proof.
  unfold babel_transformAsync. by destruct (run_plugins _ _ _ _ _) as [files [e|]].
Qed.

(** The call settles with the error of a plugin or with the answer of
    the transform. *)
Lemma babel_result source options w :
  (babel_transformAsync tools source options w).1.1 = transformAsync tools source options
  \/ exists e, (run_plugins tools source (clock w) (plugins options) (fs w)).2 = Some e
               /\ (babel_transformAsync tools source options w).1.1 = Throw e.
Proof.
  unfold babel_transformAsync.
  destruct (run_plugins _ _ _ _ _) as [files [e|]]; [right; by exists e|by left].
Qed.

(** The Babel call of the script touches the preview file only. *)
Lemma babel_touched source tsxPath w :
  touched_only (fs w)
    (fs (babel_transformAsync tools source (transformOptions_of tsxPath) w).1.2)
    [previewPath_of tsxPath].
Proof.
  pose proof (run_plugins_touched source (clock w) _ (fs w) _
                (plugins_of_transformOptions tsxPath)) as H.
  unfold babel_transformAsync.
  by destruct (run_plugins _ _ _ _ _) as [files [e|]].
Qed.

(** It leaves what the output path names when the path transpiled is a
    regular file. *)
Lemma babel_keeps_output source tsxPath w content mtime :
  fs w !! tsxPath = Some (File content mtime) ->
  fs (babel_transformAsync tools source (transformOptions_of tsxPath) w).1.2
    !! jsPath_of tsxPath
  = fs w !! jsPath_of tsxPath.
Proof.
  intros Hfile.
  destruct (babel_touched source tsxPath w (jsPath_of tsxPath)) as [E|[Hd R]].
  - intros [E|[]]. by apply (jsPath_of_not_preview tsxPath).
  - done.
  - exfalso. cbn [map In] in Hd. destruct Hd as [Hd|[]].
    symmetry in Hd. apply jsPath_of_dirname_preview in Hd.
    rewrite Hd, Hfile in R. destruct R as (? & ? & ? & ? & ? & E & _).
    discriminate E.
Qed.



End BabelFacts.

(** ** [transpileFile] *)

Section TranspileFileFacts.
Import JsString Fs Transpiler.
Context {Program AST Config : Type}.
Variable tools : Tools Program AST Config.
Variable workspaceRoot : string.

(** Case analysis on the innermost scrutinee of a hypothesis or of the
    goal. *)
Ltac innermost x :=
  lazymatch x with
  | context [match ?y with _ => _ end] => innermost y
  | _ => x
  end.

Ltac case_in H :=
  match type of H with
  | context [match ?x with _ => _ end] =>
      let y := innermost x in
      destruct y eqn:?; try discriminate H
  end.


Ltac unfold_calls :=
  unfold fse_exists, fse_stat, fse_readFile,
    typescriptToProptypes_parseFromProgram, typescriptToProptypes_inject,
    prettier_resolveConfig, prettier_format, helpers_fixBabelGeneratorIssues,
    helpers_fixLineEndings, fse_writeFile, perform, ret, throw in *.

(** The cache test only looks. *)
Lemma js_is_newer_world tsxPath js ic w r w' t :
  js_is_newer tsxPath js ic w = (r, w', t) -> w' = w.
Proof.
  unfold js_is_newer, bind, promise_all2. unfold_calls.
  intros H. repeat (case_in H; cbv beta iota in H); congruence.
Qed.

Lemma js_is_newer_events tsxPath js ic w r w' t :
  js_is_newer tsxPath js ic w = (r, w', t) ->
  Forall (fun e => inside_call e = true /\ is_write e = false) t.
Proof.
  unfold js_is_newer, bind, promise_all2. unfold_calls.
  intros H. repeat (case_in H; cbv beta iota in H);
    injection H as <- <- <-; repeat constructor.
Qed.

(** The cache test of a file that is there does not throw; it answers
    whether the JavaScript version is there and newer. *)
Lemma js_is_newer_not_skipped tsxPath js ic w source mtime :
  fs w !! tsxPath = Some (File source mtime) ->
  ic = true \/ fs w !! js = None
  \/ (exists jsNode, fs w !! js = Some jsNode /\ mtimeMs (stats_of jsNode) <= mtime) ->
  exists t, js_is_newer tsxPath js ic w = (Ok false, w, t).
Proof.
  intros Htsx Hcache.
  unfold js_is_newer, bind, promise_all2. unfold_calls. unfold exists_, stat.
  destruct ic; [by eexists|]. cbn [negb]. cbv beta iota.
  destruct Hcache as [?|[Hjs|(jsNode & Hjs & Hle)]]; [done|..].
  - rewrite Hjs. by eexists.
  - repeat (first [rewrite Hjs | rewrite Htsx]; cbv beta iota).
    cbn [stats_of mtimeMs] in *.
    apply Z.ltb_ge in Hle. rewrite Hle. by eexists.
Qed.


(** The run of a file whose JavaScript version is newer. *)
Lemma skipped_run tsxPath program w tsxNode jsNode :
  fs w !! tsxPath = Some tsxNode ->
  fs w !! jsPath_of tsxPath = Some jsNode ->
  mtimeMs (stats_of tsxNode) < mtimeMs (stats_of jsNode) ->
  transpileFile tools workspaceRoot tsxPath program false w
  = (Skipped, w,
     [CallTranspileFile tsxPath false;
      FsExists (jsPath_of tsxPath);
      FsStat (jsPath_of tsxPath);
      FsStat tsxPath]).
Proof.
  intros Htsx Hjs Hnewer.
  unfold transpileFile, transpile_try, js_is_newer, bind, promise_all2,
    fse_exists, fse_stat, perform, ret, exists_, stat.
  apply Z.ltb_lt in Hnewer.
  cbn [negb].
  repeat (first [rewrite Hjs | rewrite Htsx]; cbv beta iota).
  by rewrite Hnewer.
Qed.

(** Where [.tsx] occurs in the path only as its extension, the file
    tested is the sibling [.js] file: when it is newer and the cache is
    in use, the call returns [Skipped], leaves the world as it was and
    does nothing but test that the sibling exists and stat the two
    files. *)
Lemma transpileFile_skips_newer_sibling base program w tsxNode jsNode :
  includes base ".tsx" = false ->
  fs w !! (base +:+ ".tsx") = Some tsxNode ->
  fs w !! (base +:+ ".js") = Some jsNode ->
  mtimeMs (stats_of tsxNode) < mtimeMs (stats_of jsNode) ->
  transpileFile tools workspaceRoot (base +:+ ".tsx") program false w
  = (Skipped, w,
     [CallTranspileFile (base +:+ ".tsx") false;
      FsExists (base +:+ ".js");
      FsStat (base +:+ ".js");
      FsStat (base +:+ ".tsx")]).
Proof.
  intros Hbase Htsx Hjs Hnewer.
  pose proof (replace_trailing_tsx base Hbase) as Hpath.
  fold (jsPath_of (base +:+ ".tsx")) in Hpath.
  rewrite <- Hpath in Hjs |- *. by apply (skipped_run _ _ _ tsxNode jsNode).
Qed.

Lemma readFile_ok_inv (files : gmap string node) p content :
  readFile files p = Ok content ->
  exists mtime, files !! p = Some (File content mtime).
Proof.
  unfold readFile. destruct (files !! p) as [[c m| |]|]; try done.
  intros [= <-]. by exists m.
Qed.

(** C3, as amended. A call that returns [Success] has read the source,
    transformed it with Babel into code that does not import
    [prop-types], parsed the prop types from the program,
    injected them, formatted the result with Prettier, passed it through
    [fixBabelGeneratorIssues] and [fixLineEndings], formatted it with
    Prettier a second time and written that to the [.js] path, in this
    order and with nothing else after the cache test. The write is made
    on the files as the Babel call left them. *)
Theorem transpileFile_success_pipeline
        (tsxPath : string) (program : Program) (ic : bool)
        (w w' : world) (t : list event) :
  transpileFile tools workspaceRoot tsxPath program ic w = (Success, w', t) ->
  let js := jsPath_of tsxPath in
  exists source code afterBabel ast injected config prettified data,
    readFile (fs w) tsxPath = Ok source /\
    babel_transformAsync tools source (transformOptions_of tsxPath) w
    = (Ok code, afterBabel, [BabelTransform (transformOptions_of tsxPath)]) /\
    transformAsync tools source (transformOptions_of tsxPath) = Ok code /\
    PropTypesImport.test code = false /\
    parseFromProgram tools tsxPath program = Ok ast /\
    inject tools ast code = Ok injected /\
    resolveConfig tools js (path_join workspaceRoot "prettier.config.js") = Ok config /\
    format tools injected config js = Ok prettified /\
    format tools (fixLineEndings tools source (fixBabelGeneratorIssues tools prettified))
           config js = Ok data /\
    writeFile (fs afterBabel) (clock afterBabel) js data = Ok (fs w') /\
    t = CallTranspileFile tsxPath ic
          :: (js_is_newer tsxPath js ic w).2 ++ pipeline_events tsxPath js data.
Proof.
  intros H js. unfold transpileFile in H. fold js in H.
  destruct (transpile_try _ _ _ _ _ _ _) as [[r w1] t1] eqn:E.
  destruct r as [r|e]; [|discriminate H].
  injection H as -> -> <-.
  unfold transpile_try, bind in E.
  destruct (js_is_newer tsxPath js ic w) as [[rn wn] tn] eqn:En.
  pose proof (js_is_newer_world _ _ _ _ _ _ _ En) as ->.
  destruct rn as [[|]|]; [discriminate E| |discriminate E].
  unfold_calls.
  destruct (readFile (fs w) tsxPath) as [source|]; [|discriminate E].
  pose proof (babel_events tools source (transformOptions_of tsxPath) w) as Hevents.
  pose proof (babel_result tools source (transformOptions_of tsxPath) w) as Hresult.
  destruct (babel_transformAsync tools source (transformOptions_of tsxPath) w)
    as [[[code|] afterBabel] tb] eqn:Hb; [|discriminate E].
  cbn [fst snd] in Hevents, Hresult. subst tb.
  destruct Hresult as [Hresult|(e & _ & He)]; [|discriminate He].
  symmetry in Hresult.
  repeat (case_in E; cbv beta iota in E).
  injection E as <- <-.
  by eexists source, code, afterBabel, _, _, _, _, _.
Qed.

(** C8, as amended. When the cache test does not skip the file (the
    cache is ignored, or there is no JavaScript version, or it is not
    newer) and the code Babel makes of the file matches
    [/import \w* from 'prop-types'/], the call returns [Failed] and
    writes nothing: the files are left as the Babel call left them,
    which is as they were but for the preview file, the [.js] path
    naming what it named. What it reports is the error asking to remove
    the prop types, unless a plugin threw during the Babel call. *)
Theorem transpileFile_rejects_prop_types
        (tsxPath : string) (program : Program) (ic : bool) (w : world)
        (source : string) (mtime : Z) (code : string) :
  fs w !! tsxPath = Some (File source mtime) ->
  ic = true \/ fs w !! jsPath_of tsxPath = None
  \/ (exists jsNode, fs w !! jsPath_of tsxPath = Some jsNode
                     /\ mtimeMs (stats_of jsNode) <= mtime) ->
  transformAsync tools source (transformOptions_of tsxPath) = Ok code ->
  PropTypesImport.test code = true ->
  let babel := babel_transformAsync tools source (transformOptions_of tsxPath) w in
  exists t err,
    transpileFile tools workspaceRoot tsxPath program ic w = (Failed, babel.1.2, t)
    /\ fs babel.1.2 !! jsPath_of tsxPath = fs w !! jsPath_of tsxPath
    /\ touched_only (fs w) (fs babel.1.2) [previewPath_of tsxPath]
    /\ Forall (fun e => is_write e = false) t
    /\ last t = Some (ConsoleError tsxPath err)
    /\ (babel.1.1 = Ok code ->
        err = {| message := "TypeScript demo contains prop-types, please remove them" |})
    /\ (forall e, babel.1.1 = Throw e -> err = e).
Proof.
  intros Htsx Hcache Hbabel Htest babel.
  destruct (js_is_newer_not_skipped _ _ _ _ _ _ Htsx Hcache) as [tn En].
  pose proof (js_is_newer_events _ _ _ _ _ _ _ En) as Hprobe.
  assert (Forall (fun e => is_write e = false) tn) as Htn
    by (eapply Forall_impl; [exact Hprobe|]; by intros ? [_ ?]).
  pose proof (babel_keeps_output tools source tsxPath w source mtime Htsx) as Hkept.
  pose proof (babel_touched tools source tsxPath w) as Htouched.
  pose proof (babel_events tools source (transformOptions_of tsxPath) w) as Hevents.
  pose proof (babel_result tools source (transformOptions_of tsxPath) w) as Hresult.
  fold babel in Hkept, Htouched, Hevents, Hresult.
  unfold transpileFile, transpile_try, bind. rewrite En.
  unfold_calls. unfold readFile. rewrite Htsx. cbv beta iota.
  fold babel. destruct babel as [[rb afterBabel] tb]. cbn [fst snd] in *. subst tb.
  destruct Hresult as [->|(e & _ & ->)].
  - rewrite Hbabel. cbv beta iota. rewrite Htest.
    eexists _, _. split; [reflexivity|].
    split; [done|]. split; [done|]. split.
    { repeat first [exact Htn | apply Forall_app_2 | apply List.Forall_cons
                   | apply List.Forall_nil | reflexivity]. }
    split; [by rewrite app_comm_cons, last_snoc|]. by split.
  - eexists _, _. split; [reflexivity|].
    split; [done|]. split; [done|]. split.
    { repeat first [exact Htn | apply Forall_app_2 | apply List.Forall_cons
                   | apply List.Forall_nil | reflexivity]. }
    split; [by rewrite app_comm_cons, last_snoc|].
    split; [done|]. by intros ? [= ->].
Qed.


(** [transpileFile] returns one of the three values of
    [TranspileResult]. *)
Lemma transpileFile_result tsxPath program ic w :
  let r := (transpileFile tools workspaceRoot tsxPath program ic w).1.1 in
  r = Success \/ r = Skipped \/ r = Failed.
Proof.
  unfold transpileFile.
  destruct (transpile_try _ _ _ _ _ _ _) as [[[r|e] w1] t1] eqn:E;
    cbn [fst]; [|by auto].
  unfold transpile_try, bind in E.
  destruct (js_is_newer _ _ _ _) as [[[[|]|] wn] tn]; try discriminate E.
  - injection E as <- _ _. auto.
  - unfold_calls.
    repeat (case_in E; cbv beta iota in E). injection E as <- _ _. auto.
Qed.

(** The events of a call: its entry, then only events of the call
    itself. *)
Lemma transpileFile_events tsxPath program ic w :
  exists t, (transpileFile tools workspaceRoot tsxPath program ic w).2
            = CallTranspileFile tsxPath ic :: t
            /\ Forall (fun e => inside_call e = true) t.
Proof.
  unfold transpileFile.
  destruct (transpile_try _ _ _ _ _ _ _) as [[r w1] t1] eqn:E.
  assert (Forall (fun e => inside_call e = true) t1) as Ht1.
  { unfold transpile_try, bind in E.
    destruct (js_is_newer _ _ _ _) as [[rn wn] tn] eqn:En.
    assert (Forall (fun e => inside_call e = true) tn) as Htn.
    { eapply Forall_impl; [exact (js_is_newer_events _ _ _ _ _ _ _ En)|].
      by intros ? [? _]. }
    destruct rn as [[|]|].
    - injection E as <- <- <-. by rewrite app_nil_r.
    - unfold_calls. unfold babel_transformAsync in E.
      repeat (case_in E; cbv beta iota in E);
        injection E as <- <- <-;
        repeat first [exact Htn | apply Forall_app_2 | apply List.Forall_cons
                     | apply List.Forall_nil | reflexivity].
    - by injection E as <- <- <-. }
  destruct r; cbn [snd]; eexists; (split; [reflexivity|]); [done|].
  apply Forall_app_2; [done|]. by repeat constructor.
Qed.

End TranspileFileFacts.

Section TranspileFileExamples.
Import JsString Fs Transpiler Samples.

(** C1, at a file [getFiles] selects whose name holds [.tsx] twice,
    with the cache in use: the sibling [Demo.tsx.js] is there and is
    newer, but the path tested is [Demo.js.tsx], where there is nothing.
    The call does not return [Skipped]: it reads the source, transforms
    it and writes [Demo.js.tsx], and returns [Success]. *)
Theorem transpileFile_newer_sibling_not_skipped :
  getFiles 2 sibling_fs "/repo/docs/data" = Some (Ok [doubled_tsx])
  /\ sibling_fs !! doubled_tsx = Some (File "const a = 1;" 100)
  /\ sibling_fs !! "/repo/docs/data/Demo.tsx.js" = Some (File "old" 150)
  /\ jsPath_of doubled_tsx = "/repo/docs/data/Demo.js.tsx"
  /\ sibling_fs !! "/repo/docs/data/Demo.js.tsx" = None
  /\ sibling_run.1.1 = Success
  /\ Success <> Skipped
  /\ sibling_run.2
     = CallTranspileFile doubled_tsx false
         :: FsExists "/repo/docs/data/Demo.js.tsx"
         :: pipeline_events doubled_tsx "/repo/docs/data/Demo.js.tsx" "const a = 1;"
  /\ fs sibling_run.1.2 !! "/repo/docs/data/Demo.js.tsx"
     = Some (File "const a = 1;" 200).
Proof. vm_compute. by repeat split. Qed.

(** A run with a plugin that writes a preview leaves two new files, the
    preview and the output, both listed by their directory. *)
Example previewing_run_ex :
  previewing_run.1.1 = Success
  /\ fs previewing_run.1.2 !! "/repo/docs/data/Demo.tsx.preview"
     = Some (File "<const a = 1;>" 200)
  /\ fs previewing_run.1.2 !! "/repo/docs/data/Demo.js"
     = Some (File "const a = 1;X" 200)
  /\ fs previewing_run.1.2 !! "/repo/docs/data"
     = Some (Dir ["Demo.tsx"; "Demo.tsx.preview"; "Demo.js"] true 200).
Proof. vm_compute. by repeat split. Qed.

(** When [.tsx] occurs in the path only as its extension, the path
    written to is the sibling with the extension [.js]. *)
Lemma jsPath_of_extension base :
  includes base ".tsx" = false ->
  jsPath_of (base +:+ ".tsx") = base +:+ ".js".
Proof. apply replace_trailing_tsx. Qed.

(** C2, at a path [getFiles] selects and that holds [.tsx] twice: the
    first [.tsx] is the one replaced, so the output of [Demo.tsx.tsx]
    goes to [Demo.js.tsx] and nothing is written to the sibling
    [Demo.tsx.js]. *)
Theorem transpileFile_doubled_extension_output :
  getFiles 2 doubled_fs "/repo/docs/data" = Some (Ok [doubled_tsx])
  /\ endsWith doubled_tsx ".tsx" = true
  /\ doubled_run.1.1 = Success
  /\ doubled_run.2
     = CallTranspileFile doubled_tsx true
         :: pipeline_events doubled_tsx "/repo/docs/data/Demo.js.tsx" "const a = 1;"
  /\ readFile (fs doubled_run.1.2) "/repo/docs/data/Demo.js.tsx" = Ok "const a = 1;"
  /\ fs doubled_run.1.2 !! "/repo/docs/data/Demo.tsx.js" = None.
Proof. vm_compute. done. Qed.

Lemma transpileFile_success_pipeline_witness :
  exists source code afterBabel ast injected config prettified data,
    readFile (fs demo_world) demo_tsx = Ok source /\
    babel_transformAsync previewing_tools source (transformOptions_of demo_tsx) demo_world
    = (Ok code, afterBabel, [BabelTransform (transformOptions_of demo_tsx)]) /\
    transformAsync previewing_tools source (transformOptions_of demo_tsx) = Ok code /\
    PropTypesImport.test code = false /\
    parseFromProgram previewing_tools demo_tsx "X" = Ok ast /\
    inject previewing_tools ast code = Ok injected /\
    resolveConfig previewing_tools (jsPath_of demo_tsx) (path_join root "prettier.config.js")
    = Ok config /\
    format previewing_tools injected config (jsPath_of demo_tsx) = Ok prettified /\
    format previewing_tools
           (fixLineEndings previewing_tools source
              (fixBabelGeneratorIssues previewing_tools prettified))
           config (jsPath_of demo_tsx) = Ok data /\
    writeFile (fs afterBabel) (clock afterBabel) (jsPath_of demo_tsx) data
    = Ok (fs previewing_run.1.2) /\
    previewing_run.2
    = CallTranspileFile demo_tsx false
        :: (js_is_newer demo_tsx (jsPath_of demo_tsx) false demo_world).2
        ++ pipeline_events demo_tsx (jsPath_of demo_tsx) data.
Proof.
  apply (transpileFile_success_pipeline previewing_tools root demo_tsx "X" false
           demo_world previewing_run.1.2 previewing_run.2).
  vm_compute. reflexivity.
Defined.

(** C3 as worded fails: with a [fixBabelGeneratorIssues] that does
    change the code, the successful run of a demo with a blank line
    after a comma goes through the two helpers and a second Prettier
    pass, and writes something else than the Prettier formatting of the
    injected code. *)
Lemma transpileFile_pipeline_not_as_worded :
  blank_line_run.1.1 = Success
  /\ blank_line_run.2
     = CallTranspileFile demo_tsx true
         :: pipeline_events demo_tsx demo_js ("f(a," +:+ nl +:+ "b);")
  /\ readFile (fs blank_line_run.1.2) demo_js = Ok ("f(a," +:+ nl +:+ "b);")
  /\ spec_pipeline_output fixing_tools root demo_tsx "" blank_line_source
     = Ok ("f(a," +:+ nl +:+ nl +:+ "b);")
  /\ "f(a," +:+ nl +:+ "b);" <> "f(a," +:+ nl +:+ nl +:+ "b);"
  /\ pipeline_events demo_tsx demo_js ("f(a," +:+ nl +:+ "b);")
     <> spec_pipeline_events demo_tsx demo_js ("f(a," +:+ nl +:+ "b);").
Proof. vm_compute. by repeat split. Qed.

Lemma transpileFile_rejects_prop_types_witness :
  exists t err,
    transpileFile previewing_tools root demo_tsx "" false prop_types_world
    = (Failed, prop_types_previewed_world, t)
    /\ fs prop_types_previewed_world !! jsPath_of demo_tsx
       = fs prop_types_world !! jsPath_of demo_tsx
    /\ Forall (fun e => is_write e = false) t
    /\ last t = Some (ConsoleError demo_tsx err)
    /\ err = {| message := "TypeScript demo contains prop-types, please remove them" |}.
Proof.
  destruct (transpileFile_rejects_prop_types previewing_tools root demo_tsx "" false
              prop_types_world prop_types_source 100 prop_types_source)
    as (t & err & Hrun & Hkept & _ & Hquiet & Hlast & Herr & _).
  - vm_compute. reflexivity.
  - right. left. vm_compute. reflexivity.
  - reflexivity.
  - vm_compute. reflexivity.
  - exists t, err. split; [exact Hrun|]. split; [exact Hkept|].
    split; [exact Hquiet|]. split; [exact Hlast|]. apply Herr. reflexivity.
Defined.

(** C8 as worded fails: a file whose transformed code imports
    [prop-types], but whose JavaScript version is newer, is skipped, not
    failed. *)
Lemma transpileFile_skips_prop_types_when_cached :
  readFile (fs prop_types_cached_world) demo_tsx = Ok prop_types_source
  /\ transformAsync plain_tools prop_types_source (transformOptions_of demo_tsx)
     = Ok prop_types_source
  /\ PropTypesImport.test prop_types_source = true
  /\ (transpileFile plain_tools root demo_tsx "" false prop_types_cached_world).1.1
     = Skipped
  /\ Skipped <> Failed.
Proof. vm_compute. by repeat split. Qed.



End TranspileFileExamples.

(** ** [getFiles] *)

Section GetFilesFacts.
Import JsString Fs Transpiler.

Lemma promise_all_ok {A : Type} (ps : list (option (result A))) (vs : list A) :
  promise_all ps = Some (Ok vs) ->
  Forall2 (fun p v => p = Some (Ok v)) ps vs.
Proof.
  revert vs. induction ps as [|p ps IH]; intros vs H; cbn [promise_all] in H.
  - injection H as <-. constructor.
  - destruct p as [[v|e]|]; try discriminate H.
    destruct (promise_all ps) as [[vs'|e]|]; try discriminate H.
    injection H as <-. constructor; [done|by apply IH].
Qed.

Lemma promise_all_is_Some {A : Type} (ps : list (option (result A))) :
  Forall is_Some ps -> is_Some (promise_all ps).
Proof.
  induction 1 as [|p ps [r ->] _ IH]; cbn [promise_all]; [done|].
  destruct r; [|done]. by destruct IH as [[|] ->].
Qed.

(** The messages of the errors for a path that names nothing hold the
    text [getFiles] looks for, whatever the path. *)
Lemma no_such_file_ENOENT syscall p : no_such_file (ENOENT syscall p) = true.
Proof. reflexivity. Qed.

(** What the callback pushes: the entry itself, a regular [.tsx] file not
    on the ignore list, or what the traversal of the directory it names
    returns. *)
Lemma visit_ok rec fs root name l p :
  visit rec fs root name = Some (Ok l) -> In p l ->
  (exists content mtime,
      p = path_join root name
      /\ fs !! p = Some (File content mtime)
      /\ endsWith p ".tsx" = true
      /\ ignored p = false)
  \/ (exists entries listable mtime,
        fs !! path_join root name = Some (Dir entries listable mtime)
        /\ rec (path_join root name) = Some (Ok l)).
Proof.
  unfold visit, stat. intros H Hp.
  destruct (fs !! path_join root name) as [[content mtime|entries listable mtime|mtime]|]
    eqn:Hnode; cbn [stats_of isDirectory isFile] in H; try discriminate H.
  - left. cbn [andb] in H.
    destruct (endsWith (path_join root name) ".tsx") eqn:Htsx;
      cbn [andb] in H; [|injection H as <-; destruct Hp].
    destruct (ignored (path_join root name)) eqn:Hign;
      cbn [negb] in H; injection H as <-; [destruct Hp|].
    destruct Hp as [<-|[]]. by exists content, mtime.
  - right. by exists entries, listable, mtime.
  - cbn [andb] in H. injection H as <-. destruct Hp.
Qed.

Lemma getFiles_ok_inv fuel fs root files :
  getFiles (S fuel) fs root = Some (Ok files) ->
  files = []
  \/ exists names pushed,
      readdir fs root = Ok names
      /\ promise_all (map (visit (getFiles fuel fs) fs root) names) = Some (Ok pushed)
      /\ files = concat pushed.
Proof.
  cbn [getFiles]. intros H.
  destruct (readdir fs root) as [names|e] eqn:Hdir.
  - destruct (promise_all _) as [[pushed|e]|] eqn:Hall; try discriminate H.
    + injection H as <-. right. by exists names, pushed.
    + destruct (no_such_file e); [|discriminate H]. injection H as <-. by left.
  - destruct (no_such_file e); [|discriminate H]. injection H as <-. by left.
Qed.

(** C4. Every path [getFiles] returns ends with [.tsx], ends with no
    entry of the ignore list once normalized (so not with [/pages.ts]),
    and is a regular file found by walking down from the root through the
    listed directories. *)
Theorem getFiles_sound (fuel : nat) (fs : gmap string node) (root : string)
        (files : list string) (p : string) :
  getFiles fuel fs root = Some (Ok files) ->
  In p files ->
  endsWith p ".tsx" = true
  /\ (forall ignorePath, In ignorePath ignoreList ->
                         endsWith p (path_normalize ignorePath) = false)
  /\ endsWith p "/pages.ts" = false
  /\ found fs root p.
Proof.
  revert root files. induction fuel as [|fuel IH]; intros root files H Hp;
    [discriminate H|].
  apply getFiles_ok_inv in H as [->|(names & pushed & Hdir & Hall & ->)];
    [destruct Hp|].
  apply in_concat in Hp as (l & Hl & Hp).
  apply promise_all_ok in Hall.
  assert (exists name, In name names
                       /\ visit (getFiles fuel fs) fs root name = Some (Ok l))
    as (name & Hname & Hvisit).
  { clear -Hall Hl. revert pushed Hall Hl.
    induction names as [|n names IHn]; intros pushed Hall Hl;
      inversion Hall; subst; [destruct Hl|].
    destruct Hl as [<-|Hl]; [exists n; split; [by left|done]|].
    destruct (IHn _ ltac:(eassumption) Hl) as (name & ? & ?).
    exists name. split; [by right|done]. }
  destruct (visit_ok _ _ _ _ _ _ Hvisit Hp)
    as [(content & mtime & -> & Hnode & Htsx & Hign)
       |(entries & listable & mtime & Hnode & Hrec)].
  - split; [done|].
    assert (endsWith (path_join root name) "/pages.ts" = false) as Hpages.
    { unfold ignored, ignoreList in Hign. cbn [existsb] in Hign.
      by apply orb_false_iff in Hign as [? _]. }
    split; [|split; [done|by eapply found_here]].
    intros ignorePath [<-|[]]. exact Hpages.
  - destruct (IH _ _ Hrec Hp) as (? & ? & ? & Hfound).
    split_and!; try done. by eapply found_below.
Qed.

Lemma longest_path_bound (fs : gmap string node) p n :
  fs !! p = Some n -> (String.length p <= longest_path fs)%nat.
Proof.
  intros H. apply elem_of_map_to_list in H. unfold longest_path.
  induction (map_to_list fs) as [|entry l IH]; [by apply elem_of_nil in H|].
  cbn [foldr]. apply elem_of_cons in H as [<-|H]; [cbn [fst]; lia|].
  specialize (IH H). lia.
Qed.

(** The traversal of a file system goes no deeper than its longest path
    is long: with more fuel than that, [getFiles] returns or throws. *)
Lemma getFiles_terminates (fs : gmap string node) (fuel : nat) (root : string) :
  (longest_path fs - String.length root < fuel)%nat ->
  is_Some (getFiles fuel fs root).
Proof.
  revert root. induction fuel as [|fuel IH]; intros root Hfuel; [lia|].
  cbn [getFiles].
  destruct (readdir fs root) as [names|e]; [|by destruct (no_such_file e)].
  assert (is_Some (promise_all (map (visit (getFiles fuel fs) fs root) names)))
    as [[pushed|e] ->]; [|done|by destruct (no_such_file e)].
  apply promise_all_is_Some, Forall_map, Forall_forall. intros name _.
  unfold visit, stat.
  destruct (fs !! path_join root name) as [n|] eqn:Hnode; [|done].
  destruct (isDirectory (stats_of n)); [|by destruct (_ && _)].
  apply IH. apply longest_path_bound in Hnode.
  unfold path_join in *. rewrite !length_append in *.
  cbn [String.length] in *. lia.
Qed.

Lemma getFiles_step (fs : gmap string node) (fuel : nat) (root : string) :
  getFiles (S fuel) fs root
  = match
      match readdir fs root with
      | Throw e => Some (Throw e)
      | Ok names =>
          match promise_all (map (visit (getFiles fuel fs) fs root) names) with
          | None => None
          | Some (Throw e) => Some (Throw e)
          | Some (Ok pushed) => Some (Ok (concat pushed))
          end
      end
    with
    | None => None
    | Some (Throw error) =>
        if no_such_file error then Some (Ok []) else Some (Throw error)
    | Some (Ok files) => Some (Ok files)
    end.
Proof. reflexivity. Qed.

Lemma getFiles_more_fuel (fs : gmap string node) (fuel : nat) (root : string) r :
  getFiles fuel fs root = Some r -> getFiles (S fuel) fs root = Some r.
Proof.
  revert root r. induction fuel as [|fuel IH]; intros root r H; [discriminate H|].
  rewrite getFiles_step in H. rewrite (getFiles_step fs (S fuel)).
  destruct (readdir fs root) as [names|e]; [|done].
  assert (forall q, promise_all (map (visit (getFiles fuel fs) fs root) names) = Some q ->
                    promise_all (map (visit (getFiles (S fuel) fs) fs root) names) = Some q)
    as Hall.
  { clear H. induction names as [|name names IHn]; intros q Hq; [done|].
    cbn [map promise_all] in Hq |- *.
    assert (forall v, visit (getFiles fuel fs) fs root name = Some v ->
                      visit (getFiles (S fuel) fs) fs root name = Some v) as Hv.
    { unfold visit. intros v. destruct (stat fs _) as [st|]; [|done].
      destruct (isDirectory st); [apply IH|done]. }
    destruct (visit (getFiles fuel fs) fs root name) as [v|]; [|discriminate Hq].
    rewrite (Hv v eq_refl). destruct v as [v|e]; [|done].
    destruct (promise_all (map (visit (getFiles fuel fs) fs root) names)) as [q'|];
      [|discriminate Hq].
    by rewrite (IHn q' eq_refl). }
  destruct (promise_all (map (visit (getFiles fuel fs) fs root) names)) as [q|];
    [|discriminate H].
  by rewrite (Hall q eq_refl).
Qed.

Lemma promise_all_throw_inv {A : Type} (ps : list (option (result A))) e :
  promise_all ps = Some (Throw e) -> In (Some (Throw e)) ps.
Proof.
  induction ps as [|p ps IH]; cbn [promise_all]; [done|].
  destruct p as [[v|e']|]; try done.
  - destruct (promise_all ps) as [[vs|e'']|]; try done.
    intros [= ->]. right. by apply IH.
  - intros [= ->]. by left.
Qed.

(** When every promise settles and one rejects, [Promise.all] rejects. *)
Lemma promise_all_rejects {A : Type} (ps : list (option (result A))) e :
  Forall is_Some ps -> In (Some (Throw e)) ps ->
  exists e', promise_all ps = Some (Throw e').
Proof.
  induction 1 as [|p ps [r ->] _ IH]; [done|]. cbn [promise_all]. intros [E|Hin].
  - injection E as ->. by eexists.
  - destruct r as [v|e0]; [|by eexists]. destruct (IH Hin) as [e' ->]. by eexists.
Qed.

(** The callback rejects when the entry is not there, or with what the
    traversal of the directory it names rejects with. *)
Lemma visit_throw_inv rec fs root name e :
  visit rec fs root name = Some (Throw e) ->
  (fs !! path_join root name = None /\ e = ENOENT "stat" (path_join root name))
  \/ (exists entries listable mtime,
        fs !! path_join root name = Some (Dir entries listable mtime)
        /\ rec (path_join root name) = Some (Throw e)).
Proof.
  unfold visit, stat.
  destruct (fs !! path_join root name) as [[content m|entries l m|m]|] eqn:Hnode;
    cbn [stats_of isDirectory isFile].
  - by destruct (_ && _).
  - intros H. right. by eexists _, _, _.
  - done.
  - intros [= <-]. by left.
Qed.

Lemma visit_terminates (fs : gmap string node) (fuel : nat) root name :
  (longest_path fs - String.length root < S fuel)%nat ->
  is_Some (visit (getFiles fuel fs) fs root name).
Proof.
  intros Hfuel. unfold visit, stat.
  destruct (fs !! path_join root name) as [n|] eqn:Hnode; [|done].
  destruct (isDirectory (stats_of n)); [|by destruct (_ && _)].
  apply getFiles_terminates. apply longest_path_bound in Hnode.
  unfold path_join in *. rewrite !length_append in *.
  cbn [String.length] in *. lia.
Qed.

(** What [getFiles] throws: an error whose message does not hold the
    text, that the listing of the root or [Promise.all] rejected with. *)
Lemma getFiles_throw_inv (fs : gmap string node) (fuel : nat) root e :
  getFiles (S fuel) fs root = Some (Throw e)
  <-> no_such_file e = false
      /\ (readdir fs root = Throw e
          \/ exists names,
              readdir fs root = Ok names
              /\ promise_all (map (visit (getFiles fuel fs) fs root) names)
                 = Some (Throw e)).
Proof.
  rewrite getFiles_step. split.
  - intros H. destruct (readdir fs root) as [names|e'] eqn:Hdir.
    + destruct (promise_all _) as [[pushed|e']|] eqn:Hall; try discriminate H.
      destruct (no_such_file e') eqn:He'; [discriminate H|].
      injection H as <-. split; [done|]. right. by exists names.
    + destruct (no_such_file e') eqn:He'; [discriminate H|].
      injection H as <-. split; [done|]. by left.
  - intros [He [->|(names & -> & ->)]]; by rewrite He.
Qed.

Lemma getFiles_throw_not_ENOENT (fs : gmap string node) (fuel : nat) root e :
  getFiles fuel fs root = Some (Throw e) -> no_such_file e = false.
Proof.
  destruct fuel as [|fuel]; [done|]. by intros [? _]%getFiles_throw_inv.
Qed.

(** Every error [getFiles] throws is the error of listing the root or a
    directory met by walking down from it. *)
Lemma getFiles_throw_origin (fs : gmap string node) (fuel : nat) root e :
  getFiles fuel fs root = Some (Throw e) ->
  exists above d, way fs root above d /\ readdir fs d = Throw e.
Proof.
  revert root. induction fuel as [|fuel IH]; intros root H; [discriminate H|].
  apply getFiles_throw_inv in H as [He [Hdir|(names & Hdir & Hall)]].
  - exists [], root. split; [constructor|done].
  - apply promise_all_throw_inv, in_map_iff in Hall as (name & Hvisit & Hname).
    apply visit_throw_inv in Hvisit as [[_ ->]|(entries & l & m & Hnode & Hrec)];
      [by rewrite no_such_file_ENOENT in He|].
    destruct (IH _ Hrec) as (above & d & Hway & Hd).
    exists (root :: above), d. split; [by eapply way_below|done].
Qed.

(** An error of listing a directory, whose message does not hold the
    text, makes [getFiles] throw when every entry listed by the
    directories above it is there. *)
Lemma getFiles_propagates (fs : gmap string node) root above d e :
  way fs root above d ->
  forall fuel,
    Forall (entries_there fs) above ->
    readdir fs d = Throw e ->
    no_such_file e = false ->
    (longest_path fs - String.length root < fuel)%nat ->
    exists e', getFiles fuel fs root = Some (Throw e').
Proof.
  induction 1 as [root|root names name entries l m above d Hdir Hname Hnode Hway IH];
    intros fuel Hthere Hd He Hfuel; (destruct fuel as [|fuel]; [lia|]).
  - exists e. apply getFiles_throw_inv. split; [done|by left].
  - inversion Hthere as [|? ? Hroot Hrest]; subst.
    destruct (IH fuel Hrest Hd He) as [e1 Hrec].
    { apply longest_path_bound in Hnode.
      unfold path_join in *. rewrite !length_append in *.
      cbn [String.length] in *. lia. }
    assert (visit (getFiles fuel fs) fs root name = Some (Throw e1)) as Hvisit.
    { unfold visit, stat. rewrite Hnode. cbn [stats_of isDirectory]. exact Hrec. }
    destruct (promise_all_rejects (map (visit (getFiles fuel fs) fs root) names) e1)
      as [e2 Hall].
    { apply Forall_map, Forall_forall. intros n _. by apply visit_terminates. }
    { apply in_map_iff. by exists name. }
    exists e2. apply getFiles_throw_inv. split; [|right; by exists names].
    apply promise_all_throw_inv, in_map_iff in Hall as (n & Hn & Hin).
    apply visit_throw_inv in Hn as [[Hgone _]|(? & ? & ? & _ & Hrec')].
    + by destruct (Hroot names n Hdir Hin).
    + by eapply getFiles_throw_not_ENOENT.
Qed.

(** C9, as amended. When listing the root fails with a message that
    holds [no such file or directory], as it does on a root that names
    nothing, [getFiles] returns the empty list; with another message,
    that error is thrown. The catch covers [Promise.all] too and treats
    what it rejects with in the same way. So what [getFiles] throws is
    always an error without that text, the one the listing of the root
    or [Promise.all] rejected with, and it is the error of listing the
    root or a directory below it. Such an error does make [getFiles]
    throw whenever every entry listed by the directories above the
    failing one is there. But when a listed entry names nothing and no
    entry fails in another way, the directory yields the empty list. *)
Theorem getFiles_missing_root_and_rethrow
        (fs : gmap string node) (root : string) (fuel : nat) :
  (forall e, readdir fs root = Throw e ->
             getFiles (S fuel) fs root
             = Some (if no_such_file e then Ok [] else Throw e))
  /\ (forall names e,
        readdir fs root = Ok names ->
        promise_all (map (visit (getFiles fuel fs) fs root) names) = Some (Throw e) ->
        getFiles (S fuel) fs root
        = Some (if no_such_file e then Ok [] else Throw e))
  /\ (forall e,
        getFiles (S fuel) fs root = Some (Throw e)
        <-> no_such_file e = false
            /\ (readdir fs root = Throw e
                \/ exists names,
                    readdir fs root = Ok names
                    /\ promise_all (map (visit (getFiles fuel fs) fs root) names)
                       = Some (Throw e)))
  /\ (forall e, getFiles fuel fs root = Some (Throw e) ->
                no_such_file e = false
                /\ exists above d, way fs root above d /\ readdir fs d = Throw e)
  /\ (forall above d e,
        (longest_path fs < fuel)%nat ->
        way fs root above d ->
        Forall (entries_there fs) above ->
        readdir fs d = Throw e ->
        no_such_file e = false ->
        exists e', getFiles fuel fs root = Some (Throw e'))
  /\ (forall names,
        readdir fs root = Ok names ->
        Forall (fun name =>
                  fs !! path_join root name = None
                  \/ exists l, visit (getFiles fuel fs) fs root name = Some (Ok l))
               names ->
        Exists (fun name => fs !! path_join root name = None) names ->
        getFiles (S fuel) fs root = Some (Ok [])).
Proof.
  split_and!.
  - intros e Hdir. rewrite getFiles_step, Hdir. by destruct (no_such_file e).
  - intros names e Hdir Hall. rewrite getFiles_step, Hdir, Hall.
    by destruct (no_such_file e).
  - intros e. apply getFiles_throw_inv.
  - intros e H. split; [by eapply getFiles_throw_not_ENOENT|by eapply getFiles_throw_origin].
  - intros above d e Hfuel Hway Hthere Hd He.
    eapply getFiles_propagates; [exact Hway|exact Hthere|exact Hd|exact He|lia].
  - intros names Hdir Hall Hex. cbn [getFiles]. rewrite Hdir.
    assert (exists p, promise_all (map (visit (getFiles fuel fs) fs root) names)
                      = Some (Throw (ENOENT "stat" p))) as [p ->].
    { clear Hdir. induction Hall as [|name names Hname _ IH]; [inversion Hex|].
      cbn [map promise_all].
      destruct Hname as [Hgone|[l Hl]].
      - exists (path_join root name). unfold visit at 1, stat. by rewrite Hgone.
      - rewrite Hl. inversion Hex as [? ? Hgone|? ? Hex']; subst.
        + unfold visit, stat in Hl. by rewrite Hgone in Hl.
        + destruct (IH Hex') as [p ->]. by exists p. }
    by rewrite no_such_file_ENOENT.
Qed.

End GetFilesFacts.

Section GetFilesExamples.
Import JsString Fs Transpiler Samples.

Lemma getFiles_sound_witness :
  endsWith "/repo/docs/data/sub/Inner.tsx" ".tsx" = true
  /\ (forall ignorePath, In ignorePath ignoreList ->
        endsWith "/repo/docs/data/sub/Inner.tsx" (path_normalize ignorePath) = false)
  /\ endsWith "/repo/docs/data/sub/Inner.tsx" "/pages.ts" = false
  /\ found tree_fs "/repo/docs/data" "/repo/docs/data/sub/Inner.tsx".
Proof.
  apply (getFiles_sound 3 tree_fs "/repo/docs/data"
           ["/repo/docs/data/Demo.tsx"; "/repo/docs/data/sub/Inner.tsx"]).
  - vm_compute. reflexivity.
  - simpl. tauto.
Defined.

Lemma getFiles_missing_root_and_rethrow_witness :
  getFiles 1 tree_fs "/repo/docs/src/pages" = Some (Ok [])
  /\ getFiles 1 tree_fs "/repo/docs/data/Demo.tsx"
     = Some (Throw (ENOTDIR "scandir" "/repo/docs/data/Demo.tsx"))
  /\ (exists e, getFiles 40 nested_locked_fs "/repo/docs/data" = Some (Throw e))
  /\ getFiles 2 ghost_fs "/repo/docs/data" = Some (Ok []).
Proof.
  split; [|split; [|split]].
  - destruct (getFiles_missing_root_and_rethrow tree_fs "/repo/docs/src/pages" 0)
      as (Hlisting & _).
    refine (Hlisting (ENOENT "scandir" "/repo/docs/src/pages") _).
    vm_compute. reflexivity.
  - destruct (getFiles_missing_root_and_rethrow tree_fs "/repo/docs/data/Demo.tsx" 0)
      as (Hlisting & _).
    refine (Hlisting (ENOTDIR "scandir" "/repo/docs/data/Demo.tsx") _).
    vm_compute. reflexivity.
  - destruct (getFiles_missing_root_and_rethrow nested_locked_fs "/repo/docs/data" 40)
      as (_ & _ & _ & _ & Hthrown & _).
    apply (Hthrown ["/repo/docs/data"; "/repo/docs/data/sub"]
             "/repo/docs/data/sub/locked"
             (EACCES "scandir" "/repo/docs/data/sub/locked")).
    + vm_compute. lia.
    + apply (way_below _ "/repo/docs/data" ["Demo.tsx"; "sub"] "sub" ["locked"] true 60);
        [vm_compute; reflexivity|simpl; tauto|vm_compute; reflexivity|].
      apply (way_below _ "/repo/docs/data/sub" ["locked"] "locked" [] false 70);
        [vm_compute; reflexivity|simpl; tauto|vm_compute; reflexivity|].
      apply way_here.
    + repeat constructor; intros names name Hdir Hname; vm_compute in Hdir;
        injection Hdir as <-; simpl in Hname;
        repeat (destruct Hname as [<-|Hname]; [vm_compute; discriminate|]);
        destruct Hname.
    + vm_compute. reflexivity.
    + vm_compute. reflexivity.
  - destruct (getFiles_missing_root_and_rethrow ghost_fs "/repo/docs/data" 1)
      as (_ & _ & _ & _ & _ & Hgone).
    apply (Hgone ["Demo.tsx"; "ghost"]).
    + vm_compute. reflexivity.
    + constructor; [|constructor; [|constructor]].
      * right. exists ["/repo/docs/data/Demo.tsx"]. vm_compute. reflexivity.
      * left. vm_compute. reflexivity.
    + right. left. vm_compute. reflexivity.
Defined.

(** C9 as worded fails: the listing of [locked] throws an error of another
    kind, which [getFiles] does throw when it is the only one, but next to
    an entry that names nothing the error is lost and the directory, demo
    included, yields the empty list. *)
Lemma getFiles_loses_other_error :
  readdir masked_fs "/repo/docs/data/locked"
  = Throw (EACCES "scandir" "/repo/docs/data/locked")
  /\ no_such_file (EACCES "scandir" "/repo/docs/data/locked") = false
  /\ getFiles 3 locked_fs "/repo/docs/data"
     = Some (Throw (EACCES "scandir" "/repo/docs/data/locked"))
  /\ getFiles 3 masked_fs "/repo/docs/data" = Some (Ok []).
Proof. vm_compute. by repeat split. Qed.

End GetFilesExamples.

(** ** [main] *)

Section MainFacts.
Import JsString Fs Transpiler.
Context {Program AST Config : Type}.
Variable tools : Tools Program AST Config.
Variable workspaceRoot : string.

Lemma transpileAll_results tsxFiles program ic w :
  let results := (transpileAll tools workspaceRoot tsxFiles program ic w).1.1 in
  Forall valid_result results /\ length results = length tsxFiles.
Proof.
  revert w. induction tsxFiles as [|file rest IH]; intros w; cbn [transpileAll].
  - by split.
  - pose proof (transpileFile_result tools workspaceRoot file program ic w) as Hr.
    destruct (transpileFile _ _ file program ic w) as [[r w1] t1].
    specialize (IH w1).
    destruct (transpileAll _ _ rest program ic w1) as [[rs w2] t2].
    cbn [fst] in *. destruct IH as [IH1 IH2].
    split; [by constructor|]. cbn [length]. by rewrite IH2.
Qed.

Lemma transpileAll_events tsxFiles program ic w :
  let t := (transpileAll tools workspaceRoot tsxFiles program ic w).2 in
  List.filter is_call t = map (fun file => CallTranspileFile file ic) tsxFiles
  /\ Forall (fun e => is_call e = true \/ inside_call e = true) t.
Proof.
  revert w. induction tsxFiles as [|file rest IH]; intros w; cbn [transpileAll].
  - by split.
  - destruct (transpileFile_events tools workspaceRoot file program ic w)
      as (t & Ht & Hin).
    destruct (transpileFile _ _ file program ic w) as [[r w1] t1].
    specialize (IH w1).
    destruct (transpileAll _ _ rest program ic w1) as [[rs w2] t2].
    cbn [snd] in *. subst t1. destruct IH as [IH1 IH2]. split.
    + cbn [app List.filter is_call map]. f_equal.
      rewrite List.filter_app, IH1.
      assert (List.filter is_call t = []) as ->; [|done].
      clear -Hin. induction Hin as [|e t He _ IHt]; [done|].
      cbn [List.filter]. destruct e; try discriminate He; exact IHt.
    + cbn [app]. constructor; [by left|].
      apply Forall_app_2; [|done].
      eapply Forall_impl; [exact Hin|]. by right.
Qed.

(** On valid results the [switch] never reaches its default branch. *)
Lemma count_valid c r : valid_result r -> exists c', count c r = Ok c'.
Proof.
  destruct c as [[successful failed] skipped].
  intros [-> | [-> | ->]]; by eexists.
Qed.

Lemma occurrences_cons r x results :
  occurrences r (x :: results)
  = (if x =? r then 1 else 0) + occurrences r results.
Proof.
  unfold occurrences. cbn [count_occ].
  destruct (Z.eq_dec x r) as [->|Hne].
  - rewrite Z.eqb_refl. lia.
  - apply Z.eqb_neq in Hne. rewrite Hne. lia.
Qed.

Lemma tally_valid results :
  Forall valid_result results ->
  forall successful failed skipped,
    tally (successful, failed, skipped) results
    = Ok (successful + occurrences Success results,
          failed + occurrences Failed results,
          skipped + occurrences Skipped results).
Proof.
  induction 1 as [|r results Hr _ IH]; intros successful failed skipped.
  - cbn [tally]. unfold occurrences. cbn [count_occ]. by rewrite !Z.add_0_r.
  - cbn [tally]. rewrite !occurrences_cons.
    destruct Hr as [-> | [-> | ->]]; cbn [count]; cbv beta iota;
      unfold Success, Skipped, Failed in *; cbn [Z.eqb Pos.eqb];
      rewrite IH; f_equal;
      (apply pair_equal_spec; split; [apply pair_equal_spec; split|]); lia.
Qed.

Lemma occurrences_sum results :
  Forall valid_result results ->
  occurrences Success results + occurrences Skipped results
  + occurrences Failed results = Z.of_nat (length results).
Proof.
  induction 1 as [|r results Hr _ IH]; [done|].
  rewrite !occurrences_cons. cbn [length].
  destruct Hr as [-> | [-> | ->]];
    unfold Success, Skipped, Failed in *; cbn [Z.eqb Pos.eqb]; lia.
Qed.

Lemma occurrences_pos r results :
  0 < occurrences r results <-> In r results.
Proof.
  unfold occurrences. rewrite (count_occ_In Z.eq_dec). lia.
Qed.

(** What [main] does once both roots are listed. *)
Lemma main_batch fuel argv w oldStructure newStructure :
  getFiles fuel (fs w) (path_join workspaceRoot "docs/src/pages") = Some (Ok oldStructure) ->
  getFiles fuel (fs w) (path_join workspaceRoot "docs/data") = Some (Ok newStructure) ->
  let tsxFiles := oldStructure ++ newStructure in
  let program := createProgram tools (fs w) tsxFiles in
  let batch := transpileAll tools workspaceRoot tsxFiles program (disableCache argv) w in
  let failed := occurrences Failed batch.1.1 in
  let summary := Summary (occurrences Success batch.1.1)
                         (occurrences Skipped batch.1.1) failed in
  main tools workspaceRoot fuel argv w
  = if negb (watch argv) then
      if 0 <? failed then
        Some ({| status := Exited 1; watched := [] |}, batch.1.2,
              (batch.2 ++ [summary]) ++ [ProcessExit 1])
      else
        Some ({| status := Returned; watched := [] |}, batch.1.2, batch.2 ++ [summary])
    else
      Some ({| status := Returned; watched := tsxFiles |}, batch.1.2,
            (batch.2 ++ [summary])
              ++ map (fun filePath => FsWatchFile filePath 500) tsxFiles
              ++ [ConsoleLog (String "010" "Watching for file changes...")]).
Proof.
  intros Hold Hnew tsxFiles program batch failed summary.
  unfold main. rewrite Hold, Hnew. fold tsxFiles program batch.
  pose proof (transpileAll_results tsxFiles program (disableCache argv) w) as [Hvalid _].
  fold batch in Hvalid.
  destruct batch as [[results w1] t1] eqn:Hbatch. cbn [fst snd] in *.
  rewrite (tally_valid results Hvalid). by rewrite !Z.add_0_l.
Qed.

(** What [main] does when the listing of a root throws. *)
Lemma main_rejected fuel argv w e :
  getFiles fuel (fs w) (path_join workspaceRoot "docs/src/pages") = Some (Throw e)
  \/ (exists oldStructure,
         getFiles fuel (fs w) (path_join workspaceRoot "docs/src/pages")
         = Some (Ok oldStructure))
     /\ getFiles fuel (fs w) (path_join workspaceRoot "docs/data") = Some (Throw e) ->
  main tools workspaceRoot fuel argv w
  = Some ({| status := Rejected e; watched := [] |}, w, []).
Proof.
  unfold main. intros [->|[[oldStructure ->] ->]]; done.
Qed.

(** C6, as amended. Without [--watch], and with fuel for the longest
    path, [main] ends, registers no watcher and leaves no listener, so
    nothing is transpiled again. When [getFiles] throws for a root,
    [main] rejects with that error and has done nothing. When it returns
    for both, [main] calls [transpileFile] once for each discovered
    file, in order, prints after the last call the summary of the three
    counts, then exits with status 1 when some file failed and returns
    otherwise; the files are left as the batch left them. *)
Theorem main_one_shot (argv : Argv) (w : world) (fuel : nat) :
  watch argv = false ->
  (longest_path (fs w) < fuel)%nat ->
  exists fin w' t,
    main tools workspaceRoot fuel argv w = Some (fin, w', t)
    /\ watched fin = []
    /\ Forall (fun e => is_watch e = false) t
    /\ (forall program filePath w0,
          on_change tools workspaceRoot (watched fin) program filePath w0 = None)
    /\ (forall e,
          getFiles fuel (fs w) (path_join workspaceRoot "docs/src/pages")
          = Some (Throw e)
          \/ (exists oldStructure,
                 getFiles fuel (fs w) (path_join workspaceRoot "docs/src/pages")
                 = Some (Ok oldStructure))
             /\ getFiles fuel (fs w) (path_join workspaceRoot "docs/data")
                = Some (Throw e) ->
          status fin = Rejected e /\ w' = w /\ t = [])
    /\ forall oldStructure newStructure,
        getFiles fuel (fs w) (path_join workspaceRoot "docs/src/pages")
        = Some (Ok oldStructure) ->
        getFiles fuel (fs w) (path_join workspaceRoot "docs/data")
        = Some (Ok newStructure) ->
        let tsxFiles := oldStructure ++ newStructure in
        let program := createProgram tools (fs w) tsxFiles in
        let batch :=
          transpileAll tools workspaceRoot tsxFiles program (disableCache argv) w in
        let failed := occurrences Failed batch.1.1 in
        w' = batch.1.2
        /\ t = batch.2
               ++ Summary (occurrences Success batch.1.1)
                          (occurrences Skipped batch.1.1) failed
               :: (if 0 <? failed then [ProcessExit 1] else [])
        /\ List.filter is_call batch.2
           = map (fun file => CallTranspileFile file (disableCache argv)) tsxFiles
        /\ Forall (fun e => is_call e = true \/ inside_call e = true) batch.2
        /\ length batch.1.1 = length tsxFiles
        /\ (0 < failed <-> In Failed batch.1.1)
        /\ status fin = (if 0 <? failed then Exited 1 else Returned).
Proof.
  intros Hwatch Hfuel.
  destruct (getFiles_terminates (fs w) fuel (path_join workspaceRoot "docs/src/pages"))
    as [r1 H1]; [lia|].
  destruct (getFiles_terminates (fs w) fuel (path_join workspaceRoot "docs/data"))
    as [r2 H2]; [lia|].
  destruct r1 as [oldStructure|e1].
  2:{ exists {| status := Rejected e1; watched := [] |}, w, [].
      rewrite (main_rejected fuel argv w e1) by by left.
      split_and!; try done.
      - intros e [He|[[old' Hold'] _]]; [|by rewrite H1 in Hold'].
        rewrite H1 in He. by injection He as ->.
      - intros old' new' Hold'. by rewrite H1 in Hold'. }
  destruct r2 as [newStructure|e2].
  2:{ exists {| status := Rejected e2; watched := [] |}, w, [].
      rewrite (main_rejected fuel argv w e2) by (right; split; [by eexists|done]).
      split_and!; try done.
      - intros e [He|[_ He]]; [by rewrite H1 in He|].
        rewrite H2 in He. by injection He as ->.
      - intros old' new' _ Hnew'. by rewrite H2 in Hnew'. }
  pose proof (main_batch fuel argv w _ _ H1 H2) as Hmain.
  cbv zeta in Hmain. rewrite Hwatch in Hmain. cbn [negb] in Hmain.
  set (tsxFiles := oldStructure ++ newStructure) in *.
  set (program := createProgram tools (fs w) tsxFiles) in *.
  pose proof (transpileAll_events tsxFiles program (disableCache argv) w) as [Hcalls Hin].
  pose proof (transpileAll_results tsxFiles program (disableCache argv) w) as [_ Hlen].
  set (batch := transpileAll tools workspaceRoot tsxFiles program (disableCache argv) w) in *.
  assert (Forall (fun e => is_watch e = false) batch.2) as Hnowatch.
  { eapply Forall_impl; [exact Hin|]. intros e [He|He]; by destruct e. }
  set (failed := occurrences Failed batch.1.1) in *.
  assert (forall old' new',
             getFiles fuel (fs w) (path_join workspaceRoot "docs/src/pages")
             = Some (Ok old') ->
             getFiles fuel (fs w) (path_join workspaceRoot "docs/data")
             = Some (Ok new') ->
             old' = oldStructure /\ new' = newStructure) as Hsame.
  { intros old' new' Hold' Hnew'. rewrite H1 in Hold'. rewrite H2 in Hnew'.
    by injection Hold' as <-; injection Hnew' as <-. }
  assert (forall e,
             getFiles fuel (fs w) (path_join workspaceRoot "docs/src/pages")
             = Some (Throw e)
             \/ (exists old',
                    getFiles fuel (fs w) (path_join workspaceRoot "docs/src/pages")
                    = Some (Ok old'))
                /\ getFiles fuel (fs w) (path_join workspaceRoot "docs/data")
                   = Some (Throw e) -> False) as Hlisted.
  { intros e [He|[_ He]]; [by rewrite H1 in He|by rewrite H2 in He]. }
  destruct (0 <? failed) eqn:Hfailed;
    (eexists _, _, _; split; [exact Hmain|]);
    (split; [done|]);
    (split; [rewrite ?Forall_app; by repeat split; repeat constructor|]);
    (split; [done|]);
    (split; [intros e He; destruct (Hlisted e He)|]);
    intros old' new' Hold' Hnew';
    destruct (Hsame _ _ Hold' Hnew') as [-> ->];
    cbv zeta; fold tsxFiles program batch failed;
    rewrite Hfailed, <- ?app_assoc;
    (split; [done|]); (split; [done|]); (split; [done|]); (split; [done|]);
    (split; [done|]); (split; [apply occurrences_pos|done]).
Qed.

(** C10. [Success], [Skipped] and [Failed] are 0, 1 and 2 and
    [transpileFile] returns one of them, so the [switch] on one of its
    results never reaches the default branch; and once the two roots are
    listed [main] does not reject, and the counters it prints add up to
    the number of discovered files. *)
Theorem main_counts_every_file
        (argv : Argv) (w : world) (fuel : nat)
        (oldStructure newStructure : list string) :
  getFiles fuel (fs w) (path_join workspaceRoot "docs/src/pages")
  = Some (Ok oldStructure) ->
  getFiles fuel (fs w) (path_join workspaceRoot "docs/data")
  = Some (Ok newStructure) ->
  (Success = 0 /\ Skipped = 1 /\ Failed = 2)
  /\ (forall tsxPath program ic w0,
        valid_result (transpileFile tools workspaceRoot tsxPath program ic w0).1.1)
  /\ (forall c tsxPath program ic w0 e,
        count c (transpileFile tools workspaceRoot tsxPath program ic w0).1.1 <> Throw e)
  /\ exists fin w' t successful skipped failed,
      main tools workspaceRoot fuel argv w = Some (fin, w', t)
      /\ In (Summary successful skipped failed) t
      /\ successful + skipped + failed
         = Z.of_nat (length (oldStructure ++ newStructure))
      /\ forall e, status fin <> Rejected e.
Proof.
  intros Hold Hnew. split; [done|].
  split; [intros; apply transpileFile_result|].
  split.
  { intros c tsxPath program ic w0 e.
    destruct (count_valid c _ (transpileFile_result tools workspaceRoot tsxPath program ic w0))
      as [c' Hc].
    cbv zeta in Hc. by rewrite Hc. }
  pose proof (main_batch fuel argv w _ _ Hold Hnew) as Hmain. cbv zeta in Hmain.
  set (tsxFiles := oldStructure ++ newStructure) in *.
  set (program := createProgram tools (fs w) tsxFiles) in *.
  pose proof (transpileAll_results tsxFiles program (disableCache argv) w)
    as [Hvalid Hlen].
  cbv zeta in Hvalid, Hlen.
  set (batch := transpileAll tools workspaceRoot tsxFiles program (disableCache argv) w) in *.
  pose proof (occurrences_sum _ Hvalid) as Hsum. rewrite Hlen in Hsum.
  destruct (negb (watch argv)); [destruct (0 <? _)|];
    (eexists _, _, _, (occurrences Success batch.1.1),
       (occurrences Skipped batch.1.1), (occurrences Failed batch.1.1);
     split; [exact Hmain|]);
    (split; [rewrite ?in_app_iff; cbn [In]; tauto|]);
    (split; [exact Hsum|done]).
Qed.

End MainFacts.

Section MainExamples.
Import JsString Fs Transpiler Samples.

Lemma main_one_shot_witness :
  exists fin w' t,
    main plain_tools root 30 {| watch := false; disableCache := false |} demo_world
    = Some (fin, w', t)
    /\ watched fin = []
    /\ Forall (fun e => is_watch e = false) t
    /\ w' = demo_batch.1.2
    /\ t = demo_batch.2 ++ [Summary 1 0 0]
    /\ List.filter is_call demo_batch.2 = [CallTranspileFile demo_tsx false]
    /\ status fin = Returned.
Proof.
  destruct (main_one_shot plain_tools root
              {| watch := false; disableCache := false |} demo_world 30)
    as (fin & w' & t & Hmain & Hwatched & Hnowatch & _ & _ & Hbatch).
  - reflexivity.
  - vm_compute. lia.
  - destruct (Hbatch [] [demo_tsx])
      as (Hworld & Ht & Hcalls & _ & _ & _ & Hstatus).
    + vm_compute. reflexivity.
    + vm_compute. reflexivity.
    + exists fin, w', t.
      split; [exact Hmain|]. split; [exact Hwatched|]. split; [exact Hnowatch|].
      split; [exact Hworld|]. split; [exact Ht|]. split; [exact Hcalls|exact Hstatus].
Defined.

(** C6 as worded fails: when [docs/data] is a regular file its listing
    throws, and [main], with no [--watch], rejects with that error: it
    prints no summary, and neither exits with status 1 nor returns. *)
Lemma main_rejects_unlistable_root :
  getFiles 30 (fs blocked_world) "/repo/docs/src/pages" = Some (Ok [])
  /\ getFiles 30 (fs blocked_world) "/repo/docs/data"
     = Some (Throw (ENOTDIR "scandir" "/repo/docs/data"))
  /\ main plain_tools root 30 {| watch := false; disableCache := false |} blocked_world
     = Some ({| status := Rejected (ENOTDIR "scandir" "/repo/docs/data");
                watched := [] |}, blocked_world, [])
  /\ Rejected (ENOTDIR "scandir" "/repo/docs/data") <> Returned
  /\ Rejected (ENOTDIR "scandir" "/repo/docs/data") <> Exited 1.
Proof. vm_compute. by repeat split. Qed.

Lemma main_counts_every_file_witness :
  exists fin w' t successful skipped failed,
    main plain_tools root 30 {| watch := true; disableCache := true |} cached_world
    = Some (fin, w', t)
    /\ In (Summary successful skipped failed) t
    /\ successful + skipped + failed = 1
    /\ forall e, status fin <> Rejected e.
Proof.
  destruct (main_counts_every_file plain_tools root
              {| watch := true; disableCache := true |} cached_world 30
              [] [demo_tsx])
    as (_ & _ & _ & H).
  - vm_compute. reflexivity.
  - vm_compute. reflexivity.
  - exact H.
Defined.

End MainExamples.

(** ** [PickersModalDialog] *)

Section DialogFacts.
Import Dialog.

(** C7. The element rendered is [slots.dialog] when provided, else
    [components.Dialog] when provided, else [PickersModalDialogRoot]; its
    transition is [slots.mobileTransition], else
    [components.MobileTransition], else [Fade]; the transition and paper
    props are those of [slotProps] when provided, else those of
    [componentsProps]. The rest is forwarding too: the paper component is
    picked like the other slots, the children are wrapped in the dialog
    content, and every other attribute is the one of
    [componentsProps.dialog] if it has it, else [open] and [onClose] as
    received. *)
Theorem PickersModalDialog_forwards (p : PickersModalDialogProps) :
  let el := PickersModalDialog p in
  let dialogProps := default ∅ (componentsProps p ?. props_dialog) in
  type el
  = match slots p ?. dialog with
    | Some d => d
    | None => match components p ?. Dialog with
              | Some d => d
              | None => PickersModalDialogRoot
              end
    end
  /\ props el !! "TransitionComponent"
     = Some (VComponent
               match slots p ?. mobileTransition with
               | Some c => c
               | None => match components p ?. MobileTransition with
                         | Some c => c
                         | None => Fade
                         end
               end)
  /\ props el !! "TransitionProps"
     = Some match slotProps p ?. props_mobileTransition with
            | Some o => VObject o
            | None => of_object (componentsProps p ?. props_mobileTransition)
            end
  /\ props el !! "PaperProps"
     = Some match slotProps p ?. props_mobilePaper with
            | Some o => VObject o
            | None => of_object (componentsProps p ?. props_mobilePaper)
            end
  /\ props el !! "PaperComponent"
     = Some match slots p ?. mobilePaper with
            | Some c => VComponent c
            | None => of_component (components p ?. MobilePaper)
            end
  /\ props el !! "children"
     = Some (VElement PickersModalDialogContent {["children" := children p]})
  /\ props el !! "open"
     = Some (default (VBool (open p)) (dialogProps !! "open"))
  /\ props el !! "onClose"
     = Some (default (onDismiss p) (dialogProps !! "onClose"))
  /\ forall k, ~ In k own_attributes -> k <> "open" -> k <> "onClose" ->
               props el !! k = dialogProps !! k.
Proof.
  intros el dialogProps. subst el. unfold PickersModalDialog. cbn [type props].
  assert (forall (base : gmap string value) k,
             spread (componentsProps p ?. props_dialog) base !! k
             = match dialogProps !! k with
               | Some v => Some v
               | None => base !! k
               end) as Hspread.
  { intros base k. subst dialogProps.
    destruct (componentsProps p ?. props_dialog) as [m|]; simpl.
    - rewrite lookup_union. by destruct (m !! k), (base !! k).
    - by rewrite lookup_empty. }
  split_and!.
  - by destruct (slots p ?. dialog), (components p ?. Dialog).
  - rewrite !lookup_insert_ne, lookup_insert_eq by done.
    by destruct (slots p ?. mobileTransition), (components p ?. MobileTransition).
  - rewrite !lookup_insert_ne, lookup_insert_eq by done.
    by destruct (slotProps p ?. props_mobileTransition).
  - rewrite !lookup_insert_ne, lookup_insert_eq by done.
    by destruct (slotProps p ?. props_mobilePaper).
  - rewrite !lookup_insert_ne, lookup_insert_eq by done.
    by destruct (slots p ?. mobilePaper).
  - by rewrite lookup_insert_eq.
  - rewrite !lookup_insert_ne, Hspread by done.
    rewrite lookup_insert_ne, lookup_insert_eq by done.
    by destruct (dialogProps !! "open").
  - rewrite !lookup_insert_ne, Hspread by done.
    rewrite lookup_insert_eq. by destruct (dialogProps !! "onClose").
  - intros k Hown Hopen Hclose. unfold own_attributes in Hown. cbn [In] in Hown.
    rewrite !lookup_insert_ne, Hspread by (intros <-; tauto).
    rewrite !lookup_insert_ne, lookup_empty by done.
    by destruct (dialogProps !! k).
Qed.

Lemma PickersModalDialog_forwards_witness :
  type (PickersModalDialog sample_props) = Custom "LegacyDialog"
  /\ props (PickersModalDialog sample_props) !! "TransitionComponent"
     = Some (VComponent (Custom "Slide"))
  /\ props (PickersModalDialog sample_props) !! "TransitionProps"
     = Some (VObject {["timeout" := VOpaque "200"]})
  /\ props (PickersModalDialog sample_props) !! "fullWidth" = Some (VBool true).
Proof.
  destruct (PickersModalDialog_forwards sample_props)
    as (Htype & Htransition & Hprops & _ & _ & _ & _ & _ & Hrest).
  split; [exact Htype|]. split; [exact Htransition|]. split; [exact Hprops|].
  rewrite (Hrest "fullWidth").
  - vm_compute. reflexivity.
  - simpl. intuition discriminate.
  - discriminate.
  - discriminate.
Defined.

End DialogFacts.

(** ** More on [getFiles] *)

Section MoreGetFilesFacts.
Import JsString Fs Transpiler.

Lemma readdir_ok_inv (fs : gmap string node) root names :
  readdir fs root = Ok names ->
  exists mtime, fs !! root = Some (Dir names true mtime).
Proof.
  unfold readdir. destruct (fs !! root) as [[| names' [|] mtime |]|]; try done.
  intros [= ->]. by exists mtime.
Qed.

Lemma path_join_under root name :
  startsWith (path_join root name) (root +:+ "/") = true.
Proof.
  apply startsWith_spec. exists name. unfold path_join.
  by rewrite append_assoc.
Qed.

Lemma under_path_join root name p :
  startsWith p (path_join root name +:+ "/") = true ->
  startsWith p (root +:+ "/") = true.
Proof.
  intros [t ->]%startsWith_spec. apply startsWith_spec.
  exists (name +:+ "/" +:+ t). unfold path_join.
  by rewrite !append_assoc.
Qed.

(** X6. On a root that [path.normalize] leaves as it is and that does
    not end with a separator, every path [getFiles] returns lies under
    the root: it is the root, a separator, and the names walked
    through. *)
Theorem getFiles_under_root (fuel : nat) (fs : gmap string node) (root : string)
        (files : list string) (p : string) :
  normalized root = true ->
  getFiles fuel fs root = Some (Ok files) ->
  In p files ->
  startsWith p (root +:+ "/") = true.
Proof.
  intros _.
  revert root files. induction fuel as [|fuel IH]; intros root files H Hp;
    [discriminate H|].
  apply getFiles_ok_inv in H as [->|(names & pushed & Hdir & Hall & ->)];
    [destruct Hp|].
  apply in_concat in Hp as (l & Hl & Hp).
  apply promise_all_ok in Hall.
  assert (exists name, visit (getFiles fuel fs) fs root name = Some (Ok l))
    as [name Hvisit].
  { clear -Hall Hl. revert pushed Hall Hl.
    induction names as [|n names IHn]; intros pushed Hall Hl;
      inversion Hall; subst; [destruct Hl|].
    destruct Hl as [<-|Hl]; [by exists n|].
    by apply (IHn _ ltac:(eassumption)). }
  destruct (visit_ok _ _ _ _ _ _ Hvisit Hp)
    as [(_ & _ & -> & _)|(_ & _ & _ & _ & Hrec)].
  - apply path_join_under.
  - eapply under_path_join, IH; eassumption.
Qed.

(** What the callback pushes for an entry of a healthy file system. *)
Lemma visit_healthy (fs : gmap string node) (fuel : nat) root names name :
  healthy fs ->
  (forall root' names',
      readdir fs root' = Ok names' ->
      (longest_path fs - String.length root' < fuel)%nat ->
      exists files,
        getFiles fuel fs root' = Some (Ok files)
        /\ forall p, found fs root' p -> endsWith p ".tsx" = true -> In p files) ->
  readdir fs root = Ok names ->
  (longest_path fs - String.length root < S fuel)%nat ->
  In name names ->
  exists l,
    visit (getFiles fuel fs) fs root name = Some (Ok l)
    /\ (forall content mtime,
          fs !! path_join root name = Some (File content mtime) ->
          endsWith (path_join root name) ".tsx" = true ->
          In (path_join root name) l)
    /\ (forall entries listable mtime p,
          fs !! path_join root name = Some (Dir entries listable mtime) ->
          found fs (path_join root name) p ->
          endsWith p ".tsx" = true ->
          In p l).
Proof.
  intros Hhealthy IH Hdir Hfuel Hname.
  destruct (readdir_ok_inv _ _ _ Hdir) as [mtime Hroot].
  destruct (Hhealthy _ _ _ _ Hroot) as [_ Hthere].
  specialize (Hthere _ Hname).
  unfold visit, stat.
  destruct (fs !! path_join root name) as [[content m|entries listable m|m]|] eqn:Hnode;
    [| |by eexists|done]; cbn [stats_of isDirectory isFile].
  - cbn [andb].
    destruct (endsWith (path_join root name) ".tsx") eqn:Htsx; cbn [andb].
    + assert (ignored (path_join root name) = false) as ->.
      { unfold ignored, ignoreList, path_normalize. cbn [existsb].
        by rewrite (endsWith_tsx_not_pages _ Htsx). }
      cbn [negb].
      eexists. split; [reflexivity|]. split; [by left|done].
    + eexists. split; [reflexivity|]. by split.
  - destruct (Hhealthy _ _ _ _ Hnode) as [-> _].
    destruct (IH (path_join root name) entries) as (files & Hfiles & Hcomplete).
    + unfold readdir. by rewrite Hnode.
    + apply longest_path_bound in Hnode.
      unfold path_join in *. rewrite !length_append in *.
      cbn [String.length] in *. lia.
    + exists files. split; [done|]. split; [done|].
      intros entries' listable' mtime' p [= <- <- <-]. apply Hcomplete.
Qed.

Lemma getFiles_complete_aux (fs : gmap string node) :
  healthy fs ->
  forall fuel root names,
    readdir fs root = Ok names ->
    (longest_path fs - String.length root < fuel)%nat ->
    exists files,
      getFiles fuel fs root = Some (Ok files)
      /\ forall p, found fs root p -> endsWith p ".tsx" = true -> In p files.
Proof.
  intros Hhealthy. induction fuel as [|fuel IH]; intros root names Hdir Hfuel; [lia|].
  pose proof (visit_healthy fs fuel root names) as Hvisit.
  assert (forall ns, (forall n, In n ns -> In n names) ->
            exists pushed,
              promise_all (map (visit (getFiles fuel fs) fs root) ns) = Some (Ok pushed)
              /\ forall n, In n ns ->
                   exists l, In l pushed
                     /\ (forall content mtime,
                           fs !! path_join root n = Some (File content mtime) ->
                           endsWith (path_join root n) ".tsx" = true ->
                           In (path_join root n) l)
                     /\ (forall entries listable mtime p,
                           fs !! path_join root n = Some (Dir entries listable mtime) ->
                           found fs (path_join root n) p ->
                           endsWith p ".tsx" = true ->
                           In p l)) as Hall.
  { induction ns as [|n ns IHns]; intros Hsub.
    - exists []. by split.
    - destruct (Hvisit n Hhealthy IH Hdir Hfuel (Hsub n (or_introl eq_refl)))
        as (l & Hl & Hfile & Hsubdir).
      destruct IHns as (pushed & Hpushed & Hrest).
      { intros ? ?. apply Hsub. by right. }
      exists (l :: pushed). cbn [map promise_all]. rewrite Hl, Hpushed.
      split; [done|]. intros n' [<-|Hn'].
      + exists l. split; [by left|done].
      + destruct (Hrest n' Hn') as (l' & ? & ?). exists l'. split; [by right|done]. }
  destruct (Hall names ltac:(done)) as (pushed & Hpushed & Hrest).
  exists (concat pushed). rewrite getFiles_step, Hdir, Hpushed.
  split; [done|]. intros p Hfound Htsx. apply in_concat.
  inversion Hfound as [root' names' name content mtime Hdir' Hname Hnode
                      |root' names' name entries listable mtime p' Hdir' Hname Hnode Hbelow];
    subst; rewrite Hdir in Hdir'; injection Hdir' as <-;
    destruct (Hrest name Hname) as (l & Hl & Hfile & Hsubdir);
    exists l; (split; [done|]); eauto.
Qed.

(** X5. On a file system in which every directory may be listed and every
    listed entry is there, [getFiles] on a directory, with fuel for the
    longest path, does not throw and misses nothing: every regular file
    met by walking down from the root whose path ends with [.tsx] is in
    the list it returns. *)
Theorem getFiles_complete (fs : gmap string node) (fuel : nat)
        (root : string) (names : list string) :
  healthy fs ->
  readdir fs root = Ok names ->
  (longest_path fs < fuel)%nat ->
  exists files,
    getFiles fuel fs root = Some (Ok files)
    /\ forall p, found fs root p -> endsWith p ".tsx" = true -> In p files.
Proof.
  intros Hhealthy Hdir Hfuel.
  apply (getFiles_complete_aux fs Hhealthy fuel root names Hdir). lia.
Qed.

End MoreGetFilesFacts.

(** ** What a run changes *)

Section RunFacts.
Import JsString Fs Transpiler.
Context {Program AST Config : Type}.
Variable tools : Tools Program AST Config.
Variable workspaceRoot : string.

Ltac innermost x :=
  lazymatch x with
  | context [match ?y with _ => _ end] => innermost y
  | _ => x
  end.

Ltac case_in H :=
  match type of H with
  | context [match ?x with _ => _ end] =>
      let y := innermost x in
      destruct y eqn:?; try discriminate H
  end.

Ltac unfold_calls :=
  unfold fse_exists, fse_stat, fse_readFile,
    typescriptToProptypes_parseFromProgram, typescriptToProptypes_inject,
    prettier_resolveConfig, prettier_format, helpers_fixBabelGeneratorIssues,
    helpers_fixLineEndings, fse_writeFile, perform, ret, throw in *.

Lemma stat_ok_inv (files : gmap string node) p st :
  stat files p = Ok st -> exists n, files !! p = Some n /\ st = stats_of n.
Proof.
  unfold stat. destruct (files !! p) as [n|]; [|done].
  intros [= <-]. by exists n.
Qed.

(** When the cache test answers that the JavaScript version is newer, the
    cache is in use and both paths name nodes, the second one older. *)
Lemma js_is_newer_true tsxPath js ic w w' t :
  js_is_newer tsxPath js ic w = (Ok true, w', t) ->
  ic = false
  /\ exists tsxNode jsNode,
      fs w !! tsxPath = Some tsxNode
      /\ fs w !! js = Some jsNode
      /\ mtimeMs (stats_of tsxNode) < mtimeMs (stats_of jsNode).
Proof.
  unfold js_is_newer, bind, promise_all2. unfold_calls.
  intros H. destruct ic; [discriminate H|]. split; [done|].
  cbn [negb] in H. cbv beta iota in H.
  destruct (exists_ (fs w) js); [|discriminate H].
  destruct (stat (fs w) js) as [jsStat|] eqn:Hjs; [|discriminate H].
  destruct (stat (fs w) tsxPath) as [tsxStat|] eqn:Htsx; [|discriminate H].
  cbv beta iota in H. injection H as H _ _.
  apply stat_ok_inv in Hjs as (jsNode & Hjs & ->).
  apply stat_ok_inv in Htsx as (tsxNode & Htsx & ->).
  exists tsxNode, jsNode. by rewrite <- Z.ltb_lt.
Qed.

(** The ways a call ends: skipped by the cache; failed before the Babel
    call; or, the path being a regular file, failed after the call or
    succeeded with a write as the last thing done. *)
Lemma transpileFile_cases tsxPath program ic w r w' t :
  transpileFile tools workspaceRoot tsxPath program ic w = (r, w', t) ->
  (r = Skipped /\ w' = w /\ ic = false
   /\ exists tsxNode jsNode,
       fs w !! tsxPath = Some tsxNode
       /\ fs w !! jsPath_of tsxPath = Some jsNode
       /\ mtimeMs (stats_of tsxNode) < mtimeMs (stats_of jsNode))
  \/ (r = Failed /\ w' = w)
  \/ (exists source mtime,
         fs w !! tsxPath = Some (File source mtime)
         /\ ((r = Failed
              /\ w' = (babel_transformAsync tools source
                         (transformOptions_of tsxPath) w).1.2)
             \/ (r = Success /\ clock w' = clock w
                 /\ exists data t0,
                     writeFile
                       (fs (babel_transformAsync tools source
                              (transformOptions_of tsxPath) w).1.2)
                       (clock w) (jsPath_of tsxPath) data
                     = Ok (fs w')
                     /\ t = t0 ++ [FsWriteFile (jsPath_of tsxPath) data]))).
Proof.
  unfold transpileFile. intros H.
  destruct (transpile_try _ _ _ _ _ _ _) as [[res w1] t1] eqn:E.
  unfold transpile_try, bind in E.
  destruct (js_is_newer _ _ _ _) as [[rn wn] tn] eqn:En.
  pose proof (js_is_newer_world _ _ _ _ _ _ _ En) as ->.
  destruct rn as [[|]|e].
  - injection E as <- <- <-. injection H as <- <- <-.
    left. split; [done|]. split; [done|]. by apply js_is_newer_true in En.
  - unfold_calls.
    destruct (readFile (fs w) tsxPath) as [source|e] eqn:Hread.
    2:{ injection E as <- <- <-. injection H as <- <- <-. by right; left. }
    apply readFile_ok_inv in Hread as [mtime Hfile].
    right; right. exists source, mtime. split; [done|].
    pose proof (babel_clock tools source (transformOptions_of tsxPath) w) as Hclock.
    pose proof (babel_events tools source (transformOptions_of tsxPath) w) as Hevents.
    destruct (babel_transformAsync tools source (transformOptions_of tsxPath) w)
      as [[rb afterBabel] tb].
    cbn [fst snd] in *. subst tb. cbv beta iota in E.
    repeat (case_in E; cbv beta iota in E);
      injection E as <- <- <-; injection H as <- <- <-;
      first [ by left
            | right; split; [done|]; split; [done|];
              eexists _, (CallTranspileFile tsxPath ic
                            :: tn ++ [_; _; _; _; _; _; _; _; _]);
              rewrite <- Hclock; split; [done|]; cbn [app];
              by rewrite <- app_assoc ].
  - injection E as <- <- <-. injection H as <- <- <-. by right; left.
Qed.

(** A call changes nothing but the output file, the preview file and
    the listings of their directories, and leaves the time alone. *)
Lemma transpileFile_touched tsxPath program ic w :
  touched_only (fs w)
    (fs (transpileFile tools workspaceRoot tsxPath program ic w).1.2)
    [jsPath_of tsxPath; previewPath_of tsxPath]
  /\ clock (transpileFile tools workspaceRoot tsxPath program ic w).1.2 = clock w.
Proof.
  destruct (transpileFile _ _ _ _ _ _) as [[r w'] t] eqn:H. cbn [fst snd].
  apply transpileFile_cases in H
    as [(_ & -> & _)|[(_ & ->)|(source & mtime & _
                                & [(_ & ->)|(_ & Hclock & data & t0 & Hwrite & _)])]].
  - split; [apply touched_only_refl|done].
  - split; [apply touched_only_refl|done].
  - split; [|apply babel_clock].
    eapply touched_only_mono; [|apply babel_touched].
    intros q [<-|[]]. right. by left.
  - split; [|done].
    eapply touched_only_trans.
    + eapply touched_only_mono; [|apply (babel_touched tools source tsxPath w)].
      intros q [<-|[]]. right. by left.
    + eapply touched_only_mono; [|exact (writeFile_touched _ _ _ _ _ Hwrite)].
      intros q [<-|[]]. by left.
Qed.

(** A regular file at another path than the output path and the preview
    path is left as it is. *)
Lemma transpileFile_keeps_files tsxPath program ic w q content mtime :
  q <> jsPath_of tsxPath ->
  q <> previewPath_of tsxPath ->
  fs w !! q = Some (File content mtime) ->
  fs (transpileFile tools workspaceRoot tsxPath program ic w).1.2 !! q
  = Some (File content mtime).
Proof.
  intros Hjs Hpreview Hfile.
  destruct (transpileFile_touched tsxPath program ic w) as [Htouched _].
  eapply touched_only_file; [exact Htouched| |exact Hfile].
  intros [<-|[<-|[]]]; done.
Qed.

(** X7. A call of [transpileFile] touches two files only, the output
    file and the preview file of the Babel plugin: the time is left
    alone, every other path names what it named, but for the listing
    and the modification time of the directories of the two files, and
    a regular file at another path keeps its content and its
    modification time. *)
Theorem transpileFile_frame
        (tsxPath : string) (program : Program) (ic : bool) (w : world) :
  let run := transpileFile tools workspaceRoot tsxPath program ic w in
  let js := jsPath_of tsxPath in
  let preview := previewPath_of tsxPath in
  clock run.1.2 = clock w
  /\ (forall q, q <> js -> q <> preview ->
        fs run.1.2 !! q = fs w !! q
        \/ ((q = dirname js \/ q = dirname preview)
            /\ relisted (fs w !! q) (fs run.1.2 !! q)))
  /\ (forall q content mtime, q <> js -> q <> preview ->
        fs w !! q = Some (File content mtime) ->
        fs run.1.2 !! q = Some (File content mtime)).
Proof.
  intros run js preview. subst run.
  destruct (transpileFile_touched tsxPath program ic w) as [Htouched Hclock].
  split; [done|]. split.
  - intros q Hjs Hpreview.
    destruct (Htouched q) as [E|[Hd R]]; [by intros [<-|[<-|[]]]|by left|].
    right. split; [|done]. cbn [map In] in Hd.
    destruct Hd as [<-|[<-|[]]]; [by left|by right].
  - intros q content mtime Hjs Hpreview. by apply transpileFile_keeps_files.
Qed.

(** X8. What a call changes, by what it returns. [Skipped]: nothing.
    [Failed]: nothing but the preview file, and never what the output
    path names. [Success]: a regular file is left at the output path,
    stamped with the time of the run, and writing it is the last thing
    done. *)
Theorem transpileFile_changes_by_result
        (tsxPath : string) (program : Program) (ic : bool) (w : world) :
  let run := transpileFile tools workspaceRoot tsxPath program ic w in
  (run.1.1 = Skipped -> run.1.2 = w)
  /\ (run.1.1 = Failed ->
      clock run.1.2 = clock w
      /\ touched_only (fs w) (fs run.1.2) [previewPath_of tsxPath]
      /\ fs run.1.2 !! jsPath_of tsxPath = fs w !! jsPath_of tsxPath)
  /\ (run.1.1 = Success ->
      exists data,
        fs run.1.2 !! jsPath_of tsxPath = Some (File data (clock w))
        /\ last run.2 = Some (FsWriteFile (jsPath_of tsxPath) data)).
Proof.
  intros run. subst run.
  destruct (transpileFile _ _ _ _ _ _) as [[r w'] t] eqn:H. cbn [fst snd].
  apply transpileFile_cases in H
    as [(-> & -> & _)|[(-> & ->)|(source & mtime & Hfile
                                  & [(-> & ->)|(-> & Hclock & data & t0 & Hwrite & ->)])]].
  - by split_and!.
  - split_and!; try done. intros _. split_and!; [done|apply touched_only_refl|done].
  - split_and!; try done. intros _. split_and!.
    + apply babel_clock.
    + apply babel_touched.
    + by eapply babel_keeps_output.
  - split_and!; try done. intros _. exists data.
    apply writeFile_frame in Hwrite as [Hjs _]. by rewrite last_snoc.
Qed.

Lemma jsPath_of_differs p : includes p ".tsx" = true -> p <> jsPath_of p.
Proof.
  intros Htsx Heq. apply jsPath_of_length in Htsx. rewrite <- Heq in Htsx. lia.
Qed.

(** X9. A run never changes the source it reads when the path holds
    [.tsx], as every path [getFiles] returns does: the file keeps its
    content and its modification time whatever the run returns. *)
Theorem transpileFile_keeps_source
        (tsxPath : string) (program : Program) (ic : bool) (w : world)
        (source : string) (mtime : Z) :
  includes tsxPath ".tsx" = true ->
  fs w !! tsxPath = Some (File source mtime) ->
  fs (transpileFile tools workspaceRoot tsxPath program ic w).1.2 !! tsxPath
  = Some (File source mtime).
Proof.
  intros Htsx Hfile. apply transpileFile_keeps_files; [| |done].
  - by apply jsPath_of_differs.
  - apply not_previewPath_of.
Qed.

(** X10. Transpiling is idempotent through the cache: after a run that
    returned [Success], made at a time later than the modification time
    of the source, a run with the cache in use returns [Skipped] and
    changes nothing, whatever its program. *)
Theorem transpileFile_then_skipped
        (tsxPath : string) (program program' : Program) (ic : bool) (w : world)
        (source : string) (mtime : Z) :
  let run := transpileFile tools workspaceRoot tsxPath program ic w in
  run.1.1 = Success ->
  includes tsxPath ".tsx" = true ->
  fs w !! tsxPath = Some (File source mtime) ->
  mtime < clock w ->
  transpileFile tools workspaceRoot tsxPath program' false run.1.2
  = (Skipped, run.1.2,
     [CallTranspileFile tsxPath false;
      FsExists (jsPath_of tsxPath);
      FsStat (jsPath_of tsxPath);
      FsStat tsxPath]).
Proof.
  intros run Hsuccess Htsx Hfile Hlater.
  pose proof (transpileFile_keeps_files tsxPath program ic w tsxPath source mtime
                (jsPath_of_differs _ Htsx) (not_previewPath_of _) Hfile) as Hkept.
  fold run in Hkept.
  destruct run as [[r w'] t] eqn:H. cbn [fst snd] in *. subst r.
  apply transpileFile_cases in H
    as [(? & _)|[(? & _)|(? & ? & _ & [(? & _)|(_ & _ & data & t0 & Hwrite & _)])]];
    [done..|].
  apply writeFile_frame in Hwrite as [Hjs _].
  by apply (skipped_run _ _ _ _ _ (File source mtime) (File data (clock w))).
Qed.

(** X11. [Skipped] comes from the cache only: a call returns it only
    with the cache in use and a node at the output path whose modification
    time is strictly greater than that of the source. With the cache
    ignored, or with equal times, the file is transpiled again. *)
Theorem transpileFile_skipped_only_when_newer
        (tsxPath : string) (program : Program) (ic : bool) (w : world) :
  (transpileFile tools workspaceRoot tsxPath program ic w).1.1 = Skipped ->
  ic = false
  /\ exists tsxNode jsNode,
      fs w !! tsxPath = Some tsxNode
      /\ fs w !! jsPath_of tsxPath = Some jsNode
      /\ mtimeMs (stats_of tsxNode) < mtimeMs (stats_of jsNode).
Proof.
  destruct (transpileFile _ _ _ _ _ _) as [[r w'] t] eqn:H. cbn [fst].
  intros ->.
  by apply transpileFile_cases in H
    as [(_ & _ & ? & ?)|[(? & _)|(? & ? & _ & [(? & _)|(? & _)])]].
Qed.

(** Nothing is reported inside the [try] block. *)
Lemma transpile_try_reports_nothing tsxPath program ic js w r w' t :
  transpile_try tools workspaceRoot tsxPath program ic js w = (r, w', t) ->
  Forall (fun e => is_report e = false) t.
Proof.
  unfold transpile_try, bind. intros E.
  destruct (js_is_newer _ _ _ _) as [[rn wn] tn] eqn:En.
  assert (Forall (fun e => is_report e = false) tn) as Htn.
  { clear E. revert En.
    unfold js_is_newer, bind, promise_all2. unfold_calls.
    intros H. repeat (case_in H; cbv beta iota in H);
      injection H as <- <- <-; repeat constructor. }
  destruct rn as [[|]|].
  - injection E as <- <- <-. by rewrite app_nil_r.
  - unfold_calls. unfold babel_transformAsync in E.
    repeat (case_in E; cbv beta iota in E);
      injection E as <- <- <-;
      repeat first [exact Htn | apply Forall_app_2 | apply List.Forall_cons
                   | apply List.Forall_nil | reflexivity].
  - by injection E as <- <- <-.
Qed.

(** The [try] block itself never returns [Failed]. *)
Lemma transpile_try_not_Failed tsxPath program ic js w w' t :
  transpile_try tools workspaceRoot tsxPath program ic js w <> (Ok Failed, w', t).
Proof.
  unfold transpile_try, bind. intros E.
  destruct (js_is_newer _ _ _ _) as [[[[|]|] wn] tn]; try discriminate E.
  unfold_calls. unfold babel_transformAsync in E.
  repeat (case_in E; cbv beta iota in E); discriminate E.
Qed.

(** X18. Every failure is reported and nothing else is: a call prints an
    error exactly when it returns [Failed], and then prints one only, as
    the last thing it does. *)
Theorem transpileFile_reports_failures
        (tsxPath : string) (program : Program) (ic : bool) (w : world) :
  let run := transpileFile tools workspaceRoot tsxPath program ic w in
  (run.1.1 = Failed <-> Exists (fun e => is_report e = true) run.2)
  /\ (run.1.1 = Failed ->
      exists t err,
        run.2 = t ++ [ConsoleError tsxPath err]
        /\ Forall (fun e => is_report e = false) t).
Proof.
  intros run. subst run. unfold transpileFile.
  destruct (transpile_try _ _ _ _ _ _ _) as [[[r|err] w1] t1] eqn:E;
    pose proof (transpile_try_reports_nothing _ _ _ _ _ _ _ _ E) as Hquiet;
    cbn [fst snd].
  - assert (r <> Failed) as Hr.
    { intros ->. by apply transpile_try_not_Failed in E. }
    split; [|done]. split; [done|].
    intros Hex. apply Exists_exists in Hex as (e & He & Hrep).
    apply elem_of_cons in He as [->|He]; [done|].
    rewrite Forall_forall in Hquiet. by rewrite (Hquiet e He) in Hrep.
  - split.
    + split; [|done]. intros _.
      apply List.Exists_cons_tl, Exists_app. right. by constructor.
    + intros _. exists (CallTranspileFile tsxPath ic :: t1), err.
      split; [done|]. by constructor.
Qed.

End RunFacts.

(** ** The batch and the watch mode *)

Section BatchFacts.
Import JsString Fs Transpiler.
Context {Program AST Config : Type}.
Variable tools : Tools Program AST Config.
Variable workspaceRoot : string.

Lemma transpileAll_keeps_files tsxFiles program ic w q content mtime :
  ~ In q (map jsPath_of tsxFiles) ->
  ~ In q (map previewPath_of tsxFiles) ->
  fs w !! q = Some (File content mtime) ->
  fs (transpileAll tools workspaceRoot tsxFiles program ic w).1.2 !! q
  = Some (File content mtime).
Proof.
  revert w. induction tsxFiles as [|file rest IH]; intros w Hjs Hpreview Hfile; [done|].
  cbn [transpileAll map In] in *.
  pose proof (transpileFile_keeps_files tools workspaceRoot file program ic w q
                content mtime ltac:(intros ->; tauto) ltac:(intros ->; tauto) Hfile)
    as Hkept.
  destruct (transpileFile _ _ file program ic w) as [[r w1] t1].
  specialize (IH w1 ltac:(tauto) ltac:(tauto) Hkept).
  by destruct (transpileAll _ _ rest program ic w1) as [[rs w2] t2].
Qed.

Lemma transpileAll_never_skips tsxFiles program w :
  ~ In Skipped (transpileAll tools workspaceRoot tsxFiles program true w).1.1.
Proof.
  revert w. induction tsxFiles as [|file rest IH]; intros w; [by intros []|].
  cbn [transpileAll].
  destruct (transpileFile _ _ file program true w) as [[r w1] t1] eqn:H.
  specialize (IH w1).
  destruct (transpileAll _ _ rest program true w1) as [[rs w2] t2].
  cbn [fst] in *. intros [->|Hin]; [|done].
  by apply transpileFile_cases in H
    as [(_ & _ & ? & _)|[(? & _)|(? & ? & _ & [(? & _)|(? & _)])]].
Qed.

Lemma occurrences_zero r results : ~ In r results -> occurrences r results = 0.
Proof.
  intros H. pose proof (occurrences_pos r results) as Hpos.
  assert (0 <= occurrences r results) by (unfold occurrences; lia).
  destruct (Z.lt_ge_cases 0 (occurrences r results)) as [Hlt|Hge]; [|lia].
  by apply Hpos in Hlt.
Qed.

(** X12. With [--disable-cache] no file is counted as skipped: once the
    two roots are listed, the summary [main] prints has no skipped file
    and its two other counters add up to the number of discovered
    files. *)
Theorem main_disable_cache_skips_nothing
        (argv : Argv) (w : world) (fuel : nat)
        (oldStructure newStructure : list string) :
  disableCache argv = true ->
  getFiles fuel (fs w) (path_join workspaceRoot "docs/src/pages")
  = Some (Ok oldStructure) ->
  getFiles fuel (fs w) (path_join workspaceRoot "docs/data")
  = Some (Ok newStructure) ->
  exists fin w' t successful failed,
    main tools workspaceRoot fuel argv w = Some (fin, w', t)
    /\ In (Summary successful 0 failed) t
    /\ successful + failed = Z.of_nat (length (oldStructure ++ newStructure)).
Proof.
  intros Hcache Hold Hnew.
  pose proof (main_batch tools workspaceRoot fuel argv w _ _ Hold Hnew) as Hmain.
  cbv zeta in Hmain. rewrite Hcache in Hmain.
  set (tsxFiles := oldStructure ++ newStructure) in *.
  set (program := createProgram tools (fs w) tsxFiles) in *.
  pose proof (transpileAll_results tools workspaceRoot tsxFiles program true w)
    as [Hvalid Hlen].
  pose proof (transpileAll_never_skips tsxFiles program w) as Hnoskip.
  cbv zeta in Hvalid, Hlen.
  set (batch := transpileAll tools workspaceRoot tsxFiles program true w) in *.
  pose proof (occurrences_sum _ Hvalid) as Hsum.
  rewrite Hlen, (occurrences_zero _ _ Hnoskip) in Hsum.
  rewrite (occurrences_zero _ _ Hnoskip) in Hmain.
  destruct (negb (watch argv)); [destruct (0 <? _)|];
    (eexists _, _, _, (occurrences Success batch.1.1), (occurrences Failed batch.1.1);
     split; [exact Hmain|]);
    (split; [rewrite ?in_app_iff; cbn [In]; tauto|lia]).
Qed.

(** X13. With [--watch], once the two roots are listed, [main] never
    exits the process, files failed or not: it returns after registering,
    after the summary, one watcher of interval 500 for each discovered
    file, in order, and printing that it is watching. *)
Theorem main_watch_mode
        (argv : Argv) (w : world) (fuel : nat)
        (oldStructure newStructure : list string) :
  watch argv = true ->
  getFiles fuel (fs w) (path_join workspaceRoot "docs/src/pages")
  = Some (Ok oldStructure) ->
  getFiles fuel (fs w) (path_join workspaceRoot "docs/data")
  = Some (Ok newStructure) ->
  let tsxFiles := oldStructure ++ newStructure in
  exists w' t1 successful skipped failed,
    main tools workspaceRoot fuel argv w
    = Some ({| status := Returned; watched := tsxFiles |}, w',
            t1 ++ Summary successful skipped failed
               :: map (fun filePath => FsWatchFile filePath 500) tsxFiles
               ++ [ConsoleLog (String "010" "Watching for file changes...")])
    /\ Forall (fun e => is_call e = true \/ inside_call e = true) t1.
Proof.
  intros Hwatch Hold Hnew tsxFiles.
  pose proof (main_batch tools workspaceRoot fuel argv w _ _ Hold Hnew) as Hmain.
  cbv zeta in Hmain. rewrite Hwatch in Hmain. cbn [negb] in Hmain.
  fold tsxFiles in Hmain.
  set (program := createProgram tools (fs w) tsxFiles) in *.
  pose proof (transpileAll_events tools workspaceRoot tsxFiles program
                (disableCache argv) w) as [_ Hin].
  cbv zeta in Hin.
  eexists _, _, _, _, _. split; [|exact Hin].
  rewrite Hmain. by rewrite <- app_assoc.
Qed.

(** X14. [main] writes to output and preview paths only: once the two
    roots are listed, a regular file whose path is neither the output
    path nor the preview path of a discovered file has, when [main] is
    over, the content and the modification time it had, in either
    mode. *)
Theorem main_keeps_other_files
        (argv : Argv) (w : world) (fuel : nat)
        (oldStructure newStructure : list string)
        (q content : string) (mtime : Z) :
  getFiles fuel (fs w) (path_join workspaceRoot "docs/src/pages")
  = Some (Ok oldStructure) ->
  getFiles fuel (fs w) (path_join workspaceRoot "docs/data")
  = Some (Ok newStructure) ->
  ~ In q (map jsPath_of (oldStructure ++ newStructure)) ->
  ~ In q (map previewPath_of (oldStructure ++ newStructure)) ->
  fs w !! q = Some (File content mtime) ->
  exists fin w' t,
    main tools workspaceRoot fuel argv w = Some (fin, w', t)
    /\ fs w' !! q = Some (File content mtime).
Proof.
  intros Hold Hnew Hq Hpreview Hfile.
  pose proof (main_batch tools workspaceRoot fuel argv w _ _ Hold Hnew) as Hmain.
  cbv zeta in Hmain.
  set (tsxFiles := oldStructure ++ newStructure) in *.
  set (program := createProgram tools (fs w) tsxFiles) in *.
  pose proof (transpileAll_keeps_files tsxFiles program (disableCache argv) w
                q content mtime Hq Hpreview Hfile) as Hkept.
  destruct (negb (watch argv)); [destruct (0 <? _)|];
    (eexists _, _, _; split; [exact Hmain|exact Hkept]).
Qed.

(** What the [forEach] does on a result that is none of the three
    values. *)
Lemma count_invalid c r :
  ~ valid_result r ->
  count c r = Throw {| message := "No handler for " +:+ pretty r |}.
Proof.
  destruct c as [[successful failed] skipped]. unfold valid_result. intros H.
  cbn [count].
  destruct (Z.eqb_spec r Success); [tauto|].
  destruct (Z.eqb_spec r Failed); [tauto|].
  destruct (Z.eqb_spec r Skipped); [tauto|done].
Qed.

(** X15. The [forEach] over the results throws exactly when some result
    is none of [Success], [Skipped] and [Failed], and the error names the
    first such result; otherwise each counter has grown by the number of
    results of its kind. *)
Theorem tally_spec (c : counters) (results : list Z) :
  (Forall valid_result results ->
   tally c results
   = Ok (c.1.1 + occurrences Success results,
         c.1.2 + occurrences Failed results,
         c.2 + occurrences Skipped results))
  /\ (forall before r after,
        results = before ++ r :: after ->
        Forall valid_result before ->
        ~ valid_result r ->
        tally c results = Throw {| message := "No handler for " +:+ pretty r |})
  /\ (forall e, tally c results = Throw e -> ~ Forall valid_result results).
Proof.
  split; [|split].
  - destruct c as [[successful failed] skipped]. intros H.
    by rewrite (tally_valid results H).
  - intros before r after -> Hbefore Hr. revert c.
    induction Hbefore as [|x before Hx _ IH]; intros c; cbn [app tally].
    + by rewrite (count_invalid c r Hr).
    + destruct (count_valid c x Hx) as [c' ->]. apply IH.
  - intros e H Hvalid. destruct c as [[successful failed] skipped].
    by rewrite (tally_valid results Hvalid) in H.
Qed.

(** X19. When the listing of each root fails with a message that holds
    [no such file or directory], as it does when neither root exists,
    there is nothing to do: [main] discovers no file, transpiles
    nothing, leaves the files as they are, prints a summary of three
    zeros and returns, with [--watch] after announcing that it is
    watching, with no watcher registered. *)
Theorem main_without_roots (argv : Argv) (w : world) (fuel : nat)
        (noPages noData : Error) :
  readdir (fs w) (path_join workspaceRoot "docs/src/pages") = Throw noPages ->
  no_such_file noPages = true ->
  readdir (fs w) (path_join workspaceRoot "docs/data") = Throw noData ->
  no_such_file noData = true ->
  main tools workspaceRoot (S fuel) argv w
  = Some ({| status := Returned; watched := [] |}, w,
          Summary 0 0 0
            :: (if watch argv
                then [ConsoleLog (String "010" "Watching for file changes...")]
                else [])).
Proof.
  intros Hpages HnoPages Hdata HnoData.
  assert (forall root e, readdir (fs w) root = Throw e -> no_such_file e = true ->
                         getFiles (S fuel) (fs w) root = Some (Ok [])) as Hmissing.
  { intros root e Hroot He. by rewrite getFiles_step, Hroot, He. }
  rewrite (main_batch tools workspaceRoot (S fuel) argv w [] []
             (Hmissing _ _ Hpages HnoPages) (Hmissing _ _ Hdata HnoData)).
  cbn [app transpileAll fst snd map]. by destruct (watch argv).
Qed.

End BatchFacts.

(** ** More on [PickersModalDialog] *)

Section MoreDialogFacts.
Import Dialog.

(** X16. [slotProps.dialog] is not read: whatever it holds, the element
    rendered is the same; of the dialog props only those of
    [componentsProps] are forwarded. *)
Theorem PickersModalDialog_ignores_slotProps_dialog
        (d : option (gmap string value)) (p : PickersModalDialogProps) :
  PickersModalDialog (with_slotProps_dialog d p) = PickersModalDialog p.
Proof.
  destruct p as [c dismiss o cs cps sl [sp|]]; reflexivity.
Qed.

End MoreDialogFacts.

(** ** [useStaticPicker] *)

Section StaticPickerFacts.
Import StaticPicker.
Variable usePicker : UsePickerParams -> UsePickerResponse.
Variable clsx : value -> value -> value.

(** X17. What [renderPicker] renders: a [LocalizationProvider] with the
    locale text of the props around the layout, which is [slots.layout]
    when provided and [PickerStaticLayout] otherwise. The layout receives
    the hook's own [slots], [slotProps], [ref], the current view as
    children, the class names joined by [clsx], and as [sx] one array
    holding the entries of the props' [sx] followed by those of
    [slotProps.layout.sx]; none of these can be overridden. Every other
    attribute is the one of [slotProps.layout] if it has the key, else
    the one of the layout props of [usePicker], which is called with
    [autoFocusView] false unless [autoFocus] is given. *)
Theorem renderPicker_layout (params : UseStaticPickerParams) :
  let p := props params in
  let picker := usePicker (usePicker_call params) in
  let layoutSlotProps := get (slotProps p) "layout" in
  let attrs := layout_attributes usePicker clsx params in
  renderPicker usePicker clsx params
  = VElement LocalizationProvider
      (<["children" :=
           VElement match get (slots p) "layout" with
                    | VUndefined => PickerStaticLayout
                    | layout => layout
                    end attrs]>
       (<["localeText" := localeText p]> ∅))
  /\ autoFocusView (usePicker_call params)
     = match autoFocus p with
       | VUndefined => VBool false
       | given => given
       end
  /\ attrs !! "slots" = Some (slots p)
  /\ attrs !! "slotProps" = Some (slotProps p)
  /\ attrs !! "ref" = Some (ref params)
  /\ attrs !! "children" = Some (renderCurrentView picker tt)
  /\ attrs !! "className"
     = Some (clsx (className p) (get layoutSlotProps "className"))
  /\ attrs !! "sx"
     = Some (VArray (match sx p with
                     | VArray items => items
                     | one => [one]
                     end
                     ++ match get layoutSlotProps "sx" with
                        | VArray items => items
                        | one => [one]
                        end))
  /\ forall k, ~ In k own_layout_attributes ->
       attrs !! k
       = match layoutSlotProps with
         | VObject o =>
             match o !! k with
             | Some v => Some v
             | None => layoutProps picker !! k
             end
         | _ => layoutProps picker !! k
         end.
Proof.
  intros p picker layoutSlotProps attrs.
  subst attrs. unfold renderPicker, layout_attributes, nullish.
  fold p picker layoutSlotProps.
  split_and!.
  - by destruct (get (slots p) "layout").
  - unfold usePicker_call, nullish. cbn [autoFocusView]. fold p.
    by destruct (autoFocus p).
  - by rewrite !lookup_insert_ne, lookup_insert_eq by done.
  - by rewrite !lookup_insert_ne, lookup_insert_eq by done.
  - by rewrite !lookup_insert_ne, lookup_insert_eq by done.
  - by rewrite lookup_insert_eq.
  - by rewrite !lookup_insert_ne, lookup_insert_eq by done.
  - rewrite !lookup_insert_ne, lookup_insert_eq by done.
    by destruct (sx p), (get layoutSlotProps "sx").
  - intros k Hown. unfold own_layout_attributes in Hown. cbn [In] in Hown.
    rewrite !lookup_insert_ne by (intros <-; tauto).
    cbn [spread]. rewrite (right_id_L ∅ (∪)).
    destruct layoutSlotProps as [| | | | |o|]; cbn [spread]; try done.
    rewrite lookup_union. by destruct (o !! k), (layoutProps picker !! k).
Qed.

End StaticPickerFacts.

(** ** The properties above, on the samples *)

Section MoreExamples.
Import JsString Fs Transpiler Samples.

Lemma healthy_check_sound (files : gmap string node) :
  healthy_check files = true -> healthy files.
Proof.
  unfold healthy_check, healthy. intros H p names listable mtime Hp.
  rewrite forallb_forall in H.
  specialize (H (p, Dir names listable mtime)).
  unfold healthy_node in H. cbn [fst snd] in H.
  apply andb_true_iff in H as [-> H].
  - split; [done|]. intros name Hname.
    rewrite forallb_forall in H. specialize (H name Hname).
    unfold exists_ in H. by destruct (files !! path_join p name).
  - apply list_elem_of_In. by apply elem_of_map_to_list.
Qed.

Lemma jsPath_of_first_occurrence_witness :
  jsPath_of ("/repo/docs/data/Demo" +:+ ".tsx" +:+ ".tsx")
  = "/repo/docs/data/Demo" +:+ ".js" +:+ ".tsx".
Proof.
  apply (jsPath_of_first_occurrence "/repo/docs/data/Demo" ".tsx").
  reflexivity.
Defined.

Lemma ignoreList_excludes_nothing_witness : ignored demo_tsx = false.
Proof. apply (ignoreList_excludes_nothing demo_tsx). reflexivity. Defined.

Lemma getFiles_complete_witness :
  exists files,
    getFiles 40 tree_fs "/repo/docs/data" = Some (Ok files)
    /\ forall p, found tree_fs "/repo/docs/data" p ->
                 endsWith p ".tsx" = true -> In p files.
Proof.
  apply (getFiles_complete tree_fs 40 "/repo/docs/data"
           ["Demo.tsx"; "pages.ts"; "sub"; "sock.tsx"; "empty"]).
  - apply healthy_check_sound. vm_compute. reflexivity.
  - vm_compute. reflexivity.
  - vm_compute. lia.
Defined.

Lemma getFiles_under_root_witness :
  startsWith "/repo/docs/data/sub/Inner.tsx" ("/repo/docs/data" +:+ "/") = true.
Proof.
  apply (getFiles_under_root 3 tree_fs "/repo/docs/data"
           ["/repo/docs/data/Demo.tsx"; "/repo/docs/data/sub/Inner.tsx"]).
  - reflexivity.
  - vm_compute. reflexivity.
  - simpl. tauto.
Defined.

Lemma transpileFile_keeps_source_witness :
  fs (transpileFile plain_tools root demo_tsx "X" false demo_world).1.2 !! demo_tsx
  = Some (File "const a = 1;" 100).
Proof.
  apply (transpileFile_keeps_source plain_tools root demo_tsx "X" false demo_world).
  - vm_compute. reflexivity.
  - vm_compute. reflexivity.
Defined.

Lemma transpileFile_then_skipped_witness :
  transpileFile plain_tools root demo_tsx "Y" false
    (transpileFile plain_tools root demo_tsx "X" true demo_world).1.2
  = (Skipped, (transpileFile plain_tools root demo_tsx "X" true demo_world).1.2,
     [CallTranspileFile demo_tsx false;
      FsExists (jsPath_of demo_tsx);
      FsStat (jsPath_of demo_tsx);
      FsStat demo_tsx]).
Proof.
  apply (transpileFile_then_skipped plain_tools root demo_tsx "X" "Y" true demo_world
           "const a = 1;" 100).
  - vm_compute. reflexivity.
  - vm_compute. reflexivity.
  - vm_compute. reflexivity.
  - simpl. lia.
Defined.

Lemma transpileFile_skipped_only_when_newer_witness :
  false = false
  /\ exists tsxNode jsNode,
      fs cached_world !! demo_tsx = Some tsxNode
      /\ fs cached_world !! jsPath_of demo_tsx = Some jsNode
      /\ mtimeMs (stats_of tsxNode) < mtimeMs (stats_of jsNode).
Proof.
  apply (transpileFile_skipped_only_when_newer plain_tools root demo_tsx "" false
           cached_world).
  vm_compute. reflexivity.
Defined.

Lemma main_disable_cache_skips_nothing_witness :
  exists fin w' t successful failed,
    main plain_tools root 30 {| watch := false; disableCache := true |} cached_world
    = Some (fin, w', t)
    /\ In (Summary successful 0 failed) t
    /\ successful + failed = Z.of_nat (length ([] ++ [demo_tsx])).
Proof.
  apply (main_disable_cache_skips_nothing plain_tools root
           {| watch := false; disableCache := true |} cached_world 30 [] [demo_tsx]).
  - reflexivity.
  - vm_compute. reflexivity.
  - vm_compute. reflexivity.
Defined.

Lemma main_watch_mode_witness :
  exists w' t1 successful skipped failed,
    main plain_tools root 30 {| watch := true; disableCache := false |} prop_types_world
    = Some ({| status := Returned; watched := [] ++ [demo_tsx] |}, w',
            t1 ++ Summary successful skipped failed
               :: map (fun filePath => FsWatchFile filePath 500) ([] ++ [demo_tsx])
               ++ [ConsoleLog (String "010" "Watching for file changes...")])
    /\ Forall (fun e => is_call e = true \/ inside_call e = true) t1.
Proof.
  apply (main_watch_mode plain_tools root
           {| watch := true; disableCache := false |} prop_types_world 30
           [] [demo_tsx]).
  - reflexivity.
  - vm_compute. reflexivity.
  - vm_compute. reflexivity.
Defined.

Lemma main_keeps_other_files_witness :
  exists fin w' t,
    main previewing_tools root 30 {| watch := false; disableCache := false |} demo_world
    = Some (fin, w', t)
    /\ fs w' !! demo_tsx = Some (File "const a = 1;" 100).
Proof.
  apply (main_keeps_other_files previewing_tools root
           {| watch := false; disableCache := false |} demo_world 30
           [] [demo_tsx] demo_tsx "const a = 1;" 100).
  - vm_compute. reflexivity.
  - vm_compute. reflexivity.
  - vm_compute. intuition discriminate.
  - vm_compute. intuition discriminate.
  - vm_compute. reflexivity.
Defined.

Lemma main_without_roots_witness :
  main plain_tools root 1 {| watch := false; disableCache := false |}
    {| fs := ∅; clock := 0 |}
  = Some ({| status := Returned; watched := [] |}, {| fs := ∅; clock := 0 |},
          [Summary 0 0 0]).
Proof.
  apply (main_without_roots plain_tools root
           {| watch := false; disableCache := false |} {| fs := ∅; clock := 0 |} 0
           (ENOENT "scandir" "/repo/docs/src/pages")
           (ENOENT "scandir" "/repo/docs/data")).
  - reflexivity.
  - reflexivity.
  - reflexivity.
  - reflexivity.
Defined.

End MoreExamples.
